(** * The literature-screening pipeline of 筛选文献.py

  A shallow embedding of the Streamlit script: the PDF text extractor, the
  three LangGraph nodes (PDF_Loader, Filter, Monitor), the graph runner, the
  per-document driver [process_document] and the button handler with its
  per-file loop.

  Python [str] values are lists of Unicode code points, so that slicing
  ([s[:30000]]), [split], [join], [strip] and [replace] count characters the
  way Python does.  Calls that may raise (pypdf, the chat model) live in a
  state-and-exception monad over an explicit world: the log of requests sent
  to the model provider, the Streamlit output, the process environment and
  the trace of graph nodes. *)

From Stdlib Require Import List NArith String Ascii Bool Arith Lia.
Import ListNotations.

Set Implicit Arguments.

(** ** Python strings *)

Module PyStr.

(** A character is its code point; a [str] is a sequence of them. *)
Definition char := N.
Definition str := list char.

(** Source literals are written as UTF-8 text and decoded to code points. *)
Fixpoint utf8 (s : string) (need : nat) (acc : N) : str :=
  match s with
  | EmptyString => []
  | String a s' =>
      let b := N_of_ascii a in
      match need with
      | O =>
          if (b <? 128)%N then b :: utf8 s' 0 0%N
          else if (b <? 224)%N then utf8 s' 1 (b - 192)%N
          else if (b <? 240)%N then utf8 s' 2 (b - 224)%N
          else utf8 s' 3 (b - 240)%N
      | S k =>
          let acc' := (acc * 64 + (b - 128))%N in
          match k with
          | O => acc' :: utf8 s' 0 0%N
          | S _ => utf8 s' k acc'
          end
      end
  end.

Definition lit (s : string) : str := utf8 s 0 0%N.

Definition nl : char := 10%N.

Definition str_eqb (a b : str) : bool :=
  if list_eq_dec N.eq_dec a b then true else false.

(** Truthiness of a string: [if s:] holds iff [s] is not empty. *)
Definition truthy (s : str) : bool :=
  match s with [] => false | _ :: _ => true end.

(** [str.isspace] on one character: the code points CPython treats as
    whitespace, which are the ones [str.strip()] removes. *)
Definition isspace (c : char) : bool :=
  ((9 <=? c) && (c <=? 13) || (28 <=? c) && (c <=? 32)
   || (c =? 133) || (c =? 160) || (c =? 5760)
   || (8192 <=? c) && (c <=? 8202)
   || (c =? 8232) || (c =? 8233) || (c =? 8239) || (c =? 8287)
   || (c =? 12288))%N.

(** A line that is empty or holds nothing but whitespace. *)
Definition blank (s : str) : bool := forallb isspace s.

Fixpoint lstrip (s : str) : str :=
  match s with
  | [] => []
  | c :: s' => if isspace c then lstrip s' else s
  end.

Definition rstrip (s : str) : str := rev (lstrip (rev s)).

(** [s.strip()] *)
Definition strip (s : str) : str := rstrip (lstrip s).

(** [s.split(sep)] for a one-character separator: never the empty list. *)
Fixpoint split (sep : char) (s : str) : list str :=
  match s with
  | [] => [[]]
  | c :: s' =>
      if (c =? sep)%N then [] :: split sep s'
      else match split sep s' with
           | l :: ls => (c :: l) :: ls
           | [] => [[c]]
           end
  end.

(** [sep.join(parts)] *)
Fixpoint join (sep : str) (parts : list str) : str :=
  match parts with
  | [] => []
  | p :: rest =>
      match rest with
      | [] => p
      | _ :: _ => p ++ sep ++ join sep rest
      end
  end.

(** [s[:n]] for a non-negative bound. *)
Definition slice_to (n : N) (s : str) : str := firstn (N.to_nat n) s.

(** [s.startswith(p)] *)
Fixpoint startswith (p s : str) : bool :=
  match p, s with
  | [], _ => true
  | _ :: _, [] => false
  | a :: p', b :: s' => (a =? b)%N && startswith p' s'
  end.

(** [s.replace(old, new)]: every occurrence of [old], found left to right
    without overlap, becomes [new].  [skip] counts the characters of a
    match that are still to be passed over.  With an empty [old] Python
    puts [new] before every character and at the end. *)
Fixpoint replace_from (old new s : str) (skip : nat) : str :=
  match s with
  | [] => []
  | c :: s' =>
      match skip with
      | S k => replace_from old new s' k
      | O =>
          if startswith old s
          then new ++ replace_from old new s' (List.length old - 1)
          else c :: replace_from old new s' 0
      end
  end.

Fixpoint intersperse_all (new s : str) : str :=
  match s with
  | [] => new
  | c :: s' => new ++ c :: intersperse_all new s'
  end.

Definition replace (s old new : str) : str :=
  match old with
  | [] => intersperse_all new s
  | _ :: _ => replace_from old new s 0
  end.

End PyStr.

Import PyStr.

(** ** Effects: exceptions and the world outside the script *)

Module Exec.

(** An exception is kept as the text [str(e)] that the script prints. *)
Definition exception := str.

Inductive outcome (A : Type) : Type :=
| Return (a : A)
| Raise (e : exception).
Arguments Return {A} a.
Arguments Raise {A} e.

(** langchain_core.messages *)
Inductive Message : Type :=
| HumanMessage (content : str)
| SystemMessage (content : str).

(** langchain_openai.ChatOpenAI: the client configuration. *)
Record ChatOpenAI : Type := {
  model : str;
  openai_api_key : str;
  openai_api_base : str;
  temperature : N
}.

(** One call of [llm.invoke]: the client and the messages it was given. *)
Record ChatRequest : Type := {
  client : ChatOpenAI;
  messages : list Message
}.

(** What Streamlit was asked to show. *)
Inductive UiEvent : Type :=
| st_error (msg : str)
| st_warning (msg : str)
| st_success (msg : str)
| st_info (msg : str)
| st_markdown (msg : str)
| st_subheader (msg : str)
| st_expander (label : str)
| st_spinner (label : str)
| st_columns (spec : list N)
| st_progress (num den : nat).

(** The fields of the graph state, as dictionary keys. *)
Inductive Key : Type :=
| K_file_name
| K_raw_content
| K_screening_criteria
| K_extracted_data
| K_quality_report.

Definition Key_eq_dec (a b : Key) : {a = b} + {a <> b}.
Proof. decide equality. Defined.

(** What the graph runner did: a node was entered, a key of the state was
    overwritten with a node's update. *)
Inductive GraphEvent : Type :=
| Entered (node : string)
| Wrote (k : Key).

(** langchain's answer to a call: the message the model wrote. *)
Record AIMessage : Type := { content : str }.

(** The world outside the script.  [remote] is the model provider: what it
    does with a request, given the requests it has received before, is to
    answer or to fail (authentication, network, rate limit), and the script
    has no say in it.  [llm_calls] logs the requests sent so far. *)
Record World : Type := {
  remote : list ChatRequest -> ChatRequest -> outcome AIMessage;
  llm_calls : list ChatRequest;
  st_output : list UiEvent;
  environ : list (str * str);
  graph_trace : list GraphEvent
}.

Definition fresh_world (r : list ChatRequest -> ChatRequest -> outcome AIMessage) : World :=
  {| remote := r; llm_calls := []; st_output := []; environ := []; graph_trace := [] |}.

(** Computations: they read and change the world, and return or raise.
    What a computation did to the world before it raised stays done. *)
Definition M (A : Type) : Type := World -> outcome A * World.

Definition ret {A} (a : A) : M A := fun w => (Return a, w).

Definition raise {A} (e : exception) : M A := fun w => (Raise e, w).

Definition bind {A B} (c : M A) (k : A -> M B) : M B :=
  fun w =>
    match c w with
    | (Return a, w') => k a w'
    | (Raise e, w') => (Raise e, w')
    end.

(** [try: c  except Exception as e: h e] *)
Definition try_except {A} (c : M A) (h : exception -> M A) : M A :=
  fun w =>
    match c w with
    | (Return a, w') => (Return a, w')
    | (Raise e, w') => h e w'
    end.

Definition lift {A} (o : outcome A) : M A := fun w => (o, w).

(** [for x in xs: acc = body acc x] *)
Fixpoint for_each {A S} (xs : list A) (acc : S) (body : S -> A -> M S) : M S :=
  match xs with
  | [] => ret acc
  | x :: rest => bind (body acc x) (fun acc' => for_each rest acc' body)
  end.

(** [for idx, x in enumerate(xs): body idx x], counting from [idx]. *)
Fixpoint for_enumerate {A} (idx : nat) (xs : list A) (body : nat -> A -> M unit) : M unit :=
  match xs with
  | [] => ret tt
  | x :: rest => bind (body idx x) (fun _ => for_enumerate (S idx) rest body)
  end.

Definition show (e : UiEvent) : M unit :=
  fun w => (Return tt,
            {| remote := remote w; llm_calls := llm_calls w; st_output := st_output w ++ [e];
               environ := environ w; graph_trace := graph_trace w |}).

Definition trace (e : GraphEvent) : M unit :=
  fun w => (Return tt,
            {| remote := remote w; llm_calls := llm_calls w; st_output := st_output w;
               environ := environ w; graph_trace := graph_trace w ++ [e] |}).

(** [os.environ[k] = v], for a value that the environment takes (Python
    raises on a value with U+0000 or with a character it cannot encode; the
    statements that depend on the assignment say so). *)
Definition setenv (k v : str) : M unit :=
  fun w => (Return tt,
            {| remote := remote w; llm_calls := llm_calls w; st_output := st_output w;
               environ := (k, v) :: filter (fun kv => negb (str_eqb (fst kv) k)) (environ w);
               graph_trace := graph_trace w |}).

(** [llm.invoke(msgs)]: the request goes out and is logged, whatever the
    provider then does with it. *)
Definition llm_invoke (llm : ChatOpenAI) (msgs : list Message) : M AIMessage :=
  fun w =>
    let req := {| client := llm; messages := msgs |} in
    (remote w (llm_calls w) req,
     {| remote := remote w; llm_calls := llm_calls w ++ [req];
        st_output := st_output w; environ := environ w;
        graph_trace := graph_trace w |}).

End Exec.

Import Exec.

Declare Scope exec_scope.
Delimit Scope exec_scope with exec.
Notation "x <- c ;; k" := (bind c (fun x => k))
  (at level 61, c at next level, right associativity) : exec_scope.
Notation "c ;; k" := (bind c (fun _ => k))
  (at level 61, right associativity) : exec_scope.
Local Open Scope exec_scope.

(** ** pypdf and the uploaded file *)

Module Pdf.

(** A page is what [page.extract_text()] does on it: text, or an
    exception. *)
Record Page : Type := { extract_text : outcome str }.

(** An uploaded file is its name and what [pypdf.PdfReader] does on it:
    the pages in order, or an exception on a file it cannot read. *)
Record UploadedFile : Type := {
  name : str;
  PdfReader : outcome (list Page)
}.

(** A page that yields the text [t]. *)
Definition text_page (t : str) : Page := {| extract_text := Return t |}.

(** A readable PDF: the reader opens it and every page yields text. *)
Definition readable (f : UploadedFile) (texts : list str) : Prop :=
  PdfReader f = Return (map text_page texts).

End Pdf.

Import Pdf.

(** ** The graph state and LangGraph's runner *)

Module Graph.

(** class LiteratureState(TypedDict) *)
Record LiteratureState : Type := {
  file_name : str;
  raw_content : str;
  screening_criteria : str;
  extracted_data : str;
  quality_report : str
}.

Definition get (k : Key) (s : LiteratureState) : str :=
  match k with
  | K_file_name => file_name s
  | K_raw_content => raw_content s
  | K_screening_criteria => screening_criteria s
  | K_extracted_data => extracted_data s
  | K_quality_report => quality_report s
  end.

Definition set (k : Key) (v : str) (s : LiteratureState) : LiteratureState :=
  match k with
  | K_file_name =>
      {| file_name := v; raw_content := raw_content s;
         screening_criteria := screening_criteria s;
         extracted_data := extracted_data s; quality_report := quality_report s |}
  | K_raw_content =>
      {| file_name := file_name s; raw_content := v;
         screening_criteria := screening_criteria s;
         extracted_data := extracted_data s; quality_report := quality_report s |}
  | K_screening_criteria =>
      {| file_name := file_name s; raw_content := raw_content s;
         screening_criteria := v;
         extracted_data := extracted_data s; quality_report := quality_report s |}
  | K_extracted_data =>
      {| file_name := file_name s; raw_content := raw_content s;
         screening_criteria := screening_criteria s;
         extracted_data := v; quality_report := quality_report s |}
  | K_quality_report =>
      {| file_name := file_name s; raw_content := raw_content s;
         screening_criteria := screening_criteria s;
         extracted_data := extracted_data s; quality_report := v |}
  end.

(** A node returns a partial update: the keys it sets, with their values. *)
Definition Update : Type := list (Key * str).

Definition Node : Type := LiteratureState -> M Update.

(** The runner merges an update into the state key by key (the state's
    keys have no reducer, so a written key is overwritten). *)
Definition merge (s : LiteratureState) (u : Update) : LiteratureState :=
  fold_left (fun acc kv => set (fst kv) (snd kv) acc) u s.

Definition START : string := "__start__".
Definition END : string := "__end__".

Record StateGraph : Type := {
  nodes : list (string * Node);
  edges : list (string * string)
}.

Definition empty_graph : StateGraph := {| nodes := []; edges := [] |}.

Definition add_node (n : string) (f : Node) (g : StateGraph) : StateGraph :=
  {| nodes := nodes g ++ [(n, f)]; edges := edges g |}.

Definition add_edge (a b : string) (g : StateGraph) : StateGraph :=
  {| nodes := nodes g; edges := edges g ++ [(a, b)] |}.

Fixpoint assoc {V} (k : string) (l : list (string * V)) : option V :=
  match l with
  | [] => None
  | (k', v) :: rest => if String.eqb k k' then Some v else assoc k rest
  end.

(** LangGraph's default bound on the number of steps of one run. *)
Definition recursion_limit : nat := 25.

(** The runner follows the edge out of the current node; it stops at
    [END], and otherwise runs the node it reaches on the current state
    and merges the update the node returns. *)
Fixpoint run (g : StateGraph) (steps : nat) (at_node : string)
         (s : LiteratureState) : M LiteratureState :=
  match assoc at_node (edges g) with
  | None => ret s
  | Some next =>
      if String.eqb next END then ret s
      else
        match steps with
        | O => raise (lit "Recursion limit of 25 reached without hitting a stop condition.")
        | S steps' =>
            match assoc next (nodes g) with
            | None => raise (lit "KeyError: unknown node")
            | Some f =>
                trace (Entered next) ;;
                u <- f s ;;
                for_each (map fst u) tt (fun _ k => trace (Wrote k)) ;;
                run g steps' next (merge s u)
            end
        end
  end.

(** [workflow.compile().invoke(inputs)] *)
Definition invoke (g : StateGraph) (inputs : LiteratureState) : M LiteratureState :=
  run g recursion_limit START inputs.

Definition entered (t : list GraphEvent) : list string :=
  flat_map (fun e => match e with Entered n => [n] | Wrote _ => [] end) t.

Definition written (t : list GraphEvent) : list Key :=
  flat_map (fun e => match e with Entered _ => [] | Wrote k => [k] end) t.

End Graph.

Import Graph.

(** ** The script *)

Module Script.

(** *** 1. The PDF helper *)

(** The body of the loop over the pages: the page's text, when it is not
    empty, is appended to [text] with a newline after it. *)
Definition add_page (text : str) (page : Page) : M str :=
  content <- lift (extract_text page) ;;
  if truthy content
  then ret (text ++ content ++ lit "
")
  else ret text.

(** def extract_text_from_pdf(uploaded_file) *)
Definition extract_text_from_pdf (uploaded_file : UploadedFile) : M str :=
  try_except
    (pdf_reader <- lift (PdfReader uploaded_file) ;;
     text <- for_each pdf_reader [] add_page ;;
     ret text)
    (fun e => ret (lit "Error reading PDF: " ++ e)).

(** *** 3. The nodes of the graph *)

(** The cleaning expression of pdf_loader_agent:
    "\n".join([line for line in text.split('\n') if line.strip()]) *)
Definition clean_text (text : str) : str :=
  join [nl] (filter (fun line => truthy (strip line)) (split nl text)).

(** def pdf_loader_agent(state) *)
Definition pdf_loader_agent (state : LiteratureState) : M Update :=
  let text := raw_content state in
  ret [(K_raw_content, clean_text text)].

(** The pieces of filter_agent's f-string around its two fields, the
    criteria and the excerpt of the text with the note that follows it. *)
Definition filter_head : str := lit "
        你是一名专业的药学数据分析师。
        任务：请根据以下【筛选标准】，从【文献内容】中提取精确的数据。
        
        【筛选标准】: 
        ".

Definition filter_middle : str := lit "
        
        【文献内容】(部分展示):
        ".

Definition truncation_note : str := lit " ... (内容过长已截断，请基于全量理解)".

Definition filter_tail : str := lit "
        
        要求：
        1. 只输出提取到的数据结果，可以是表格形式或列表形式。
        2. 如果文中未提及某项标准，请明确标注“未找到”。
        3. 不要输出无关的寒暄语。
        ".

(** The f-string [prompt] of filter_agent. *)
Definition filter_prompt (state : LiteratureState) : str :=
  filter_head ++ screening_criteria state ++ filter_middle
  ++ slice_to 30000 (raw_content state) ++ truncation_note ++ filter_tail.

(** [real_msg]: the prompt with the truncated excerpt and its note replaced
    by the whole text. *)
Definition real_msg (state : LiteratureState) : str :=
  replace (filter_prompt state)
          (slice_to 30000 (raw_content state) ++ truncation_note)
          (raw_content state).

(** def filter_agent(state) *)
Definition filter_agent (llm : ChatOpenAI) (state : LiteratureState) : M Update :=
  response <- llm_invoke llm [HumanMessage (real_msg state)] ;;
  ret [(K_extracted_data, content response)].

(** The pieces of monitor_agent's f-string around its three fields. *)
Definition monitor_head : str := lit "
        你是一名严格的科研质量监督员。
        
        你的任务是审核上一步的【提取结果】是否忠实于【文献原文】以及是否符合【筛选标准】。
        
        【用户标准】: ".

Definition monitor_middle : str := lit "
        【提取结果】: ".

Definition monitor_excerpt_label : str := lit "
        【文献原文片段】: ".

Definition monitor_tail : str := lit "...
        
        请输出一份简短的【质量监控报告】：
        1. 准确率评分 (0-100)。
        2. 是否存在幻觉或遗漏？
        3. 最终修正建议（如有）。
        ".

(** monitor_agent's f-string, as a function of its three fields. *)
Definition monitor_template (criteria extracted excerpt : str) : str :=
  monitor_head ++ criteria ++ monitor_middle ++ extracted
  ++ monitor_excerpt_label ++ excerpt ++ monitor_tail.

(** The excerpt of the text that monitor_agent puts in its prompt:
    state["raw_content"][:5000]. *)
Definition monitor_excerpt (state : LiteratureState) : str :=
  slice_to 5000 (raw_content state).

(** The f-string [prompt] of monitor_agent. *)
Definition monitor_prompt (state : LiteratureState) : str :=
  monitor_template (screening_criteria state) (extracted_data state)
                   (monitor_excerpt state).

(** def monitor_agent(state) *)
Definition monitor_agent (llm : ChatOpenAI) (state : LiteratureState) : M Update :=
  response <- llm_invoke llm [HumanMessage (monitor_prompt state)] ;;
  ret [(K_quality_report, content response)].

(** The client that process_document builds. *)
Definition deepseek (api_key model_name : str) : ChatOpenAI :=
  {| model := model_name;
     openai_api_key := api_key;
     openai_api_base := lit "https://api.deepseek.com";
     temperature := 0 |}.

(** The graph that process_document builds. *)
Definition build_workflow (llm : ChatOpenAI) : StateGraph :=
  let workflow := empty_graph in
  let workflow := add_node "PDF_Loader" pdf_loader_agent workflow in
  let workflow := add_node "Filter" (filter_agent llm) workflow in
  let workflow := add_node "Monitor" (monitor_agent llm) workflow in
  let workflow := add_edge START "PDF_Loader" workflow in
  let workflow := add_edge "PDF_Loader" "Filter" workflow in
  let workflow := add_edge "Filter" "Monitor" workflow in
  let workflow := add_edge "Monitor" END workflow in
  workflow.

(** The initial state that process_document hands to the graph. *)
Definition initial_state (file_obj : UploadedFile) (raw_text criteria : str)
  : LiteratureState :=
  {| file_name := name file_obj;
     raw_content := raw_text;
     screening_criteria := criteria;
     extracted_data := [];
     quality_report := [] |}.

(** def process_document(api_key, model_name, file_obj, criteria) *)
Definition process_document (api_key model_name : str) (file_obj : UploadedFile)
           (criteria : str) : M LiteratureState :=
  setenv (lit "DEEPSEEK_API_KEY") api_key ;;
  let llm := deepseek api_key model_name in
  let app := build_workflow llm in
  raw_text <- extract_text_from_pdf file_obj ;;
  let inputs := initial_state file_obj raw_text criteria in
  invoke app inputs.

(** *** 4. The page: what the button does *)

Definition missing_key_message : str := lit "请先在左侧侧边栏输入 API Key！".
Definition missing_files_message : str := lit "请至少上传一个 PDF 文件。".

(** The body of the per-file loop, for the file at index [idx]. *)
Definition analyse_file (api_key selected_model criteria_input : str)
           (total_files idx : nat) (pdf_file : UploadedFile) : M unit :=
  show (st_expander (lit "📄 文件: " ++ name pdf_file)) ;;
  show (st_spinner (lit "正在读取并分析 " ++ name pdf_file ++ lit " ...")) ;;
  try_except
    (result <- process_document api_key selected_model pdf_file criteria_input ;;
     show (st_columns [2%N; 1%N]) ;;
     show (st_subheader (lit "🔍 数据提取结果")) ;;
     show (st_markdown (extracted_data result)) ;;
     show (st_subheader (lit "🛡️ 监督者报告")) ;;
     show (st_info (quality_report result)))
    (fun e => show (st_error (lit "处理失败: " ++ e))) ;;
  show (st_progress (idx + 1) total_files).

(** The per-file loop. *)
Definition analyse_all (api_key selected_model criteria_input : str)
           (uploaded_files : list UploadedFile) : M unit :=
  for_enumerate 0 uploaded_files
    (analyse_file api_key selected_model criteria_input (List.length uploaded_files)).

(** The body of [if st.button(...)]. *)
Definition button_handler (api_key selected_model criteria_input : str)
           (uploaded_files : list UploadedFile) : M unit :=
  if negb (truthy api_key) then
    show (st_error missing_key_message)
  else if match uploaded_files with [] => true | _ :: _ => false end then
    show (st_warning missing_files_message)
  else
    show (st_progress 0 1) ;;
    show (st_markdown (lit "### 📊 分析结果看板")) ;;
    analyse_all api_key selected_model criteria_input uploaded_files ;;
    show (st_success (lit "✅ 所有文献处理完毕！")).

(** *** Vocabulary for the runs of one document *)

(** Each non-empty page text followed by a newline, in page order. *)
Definition terminated (texts : list str) : str :=
  List.concat (map (fun t => t ++ [nl]) (filter truthy texts)).

(** The state after the Cleaning step. *)
Definition cleaned (file_obj : UploadedFile) (raw_text criteria : str)
  : LiteratureState :=
  set K_raw_content (clean_text raw_text) (initial_state file_obj raw_text criteria).

(** The request filter_agent sends on state [s]. *)
Definition extraction_request (api_key model_name : str) (s : LiteratureState)
  : ChatRequest :=
  {| client := deepseek api_key model_name;
     messages := [HumanMessage (real_msg s)] |}.

(** The request monitor_agent sends on state [s]. *)
Definition verification_request (api_key model_name : str) (s : LiteratureState)
  : ChatRequest :=
  {| client := deepseek api_key model_name;
     messages := [HumanMessage (monitor_prompt s)] |}.

(** The world [w] after its environment became [env], the requests [reqs]
    went out, the graph events [evs] happened and [ui] was shown. *)
Definition advance (w : World) (env : list (str * str)) (reqs : list ChatRequest)
           (evs : list GraphEvent) (ui : list UiEvent) : World :=
  {| remote := remote w;
     llm_calls := llm_calls w ++ reqs;
     st_output := st_output w ++ ui;
     environ := env;
     graph_trace := graph_trace w ++ evs |}.

(** The environment after [os.environ["DEEPSEEK_API_KEY"] = api_key]. *)
Definition keyed_environ (api_key : str) (w : World) : list (str * str) :=
  environ (snd (setenv (lit "DEEPSEEK_API_KEY") api_key w)).

(** The three traces a run of the graph can leave, by where it ended. *)
Definition trace_extraction_failed : list GraphEvent :=
  [Entered "PDF_Loader"; Wrote K_raw_content; Entered "Filter"].

Definition trace_verification_failed : list GraphEvent :=
  trace_extraction_failed ++ [Wrote K_extracted_data; Entered "Monitor"].

Definition trace_completed : list GraphEvent :=
  trace_verification_failed ++ [Wrote K_quality_report].

(** The keys of the state each node reads and the key it sets. *)
Definition reads (node : string) : list Key :=
  if String.eqb node "PDF_Loader"%string then [K_raw_content]
  else if String.eqb node "Filter"%string then [K_screening_criteria; K_raw_content]
  else if String.eqb node "Monitor"%string
       then [K_screening_criteria; K_extracted_data; K_raw_content]
       else [].

Definition writes (node : string) : list Key :=
  if String.eqb node "PDF_Loader"%string then [K_raw_content]
  else if String.eqb node "Filter"%string then [K_extracted_data]
  else if String.eqb node "Monitor"%string then [K_quality_report]
  else [].

Definition node_names : list string :=
  ["PDF_Loader"; "Filter"; "Monitor"]%string.

Definition key_in (k : Key) (ks : list Key) : bool :=
  existsb (fun k' => if Key_eq_dec k k' then true else false) ks.

(** [k] is set by a node other than [node]. *)
Definition set_upstream (node : string) (k : Key) : bool :=
  existsb (fun m => negb (String.eqb m node) && key_in k (writes m)) node_names.

(** In the trace [t], continuing a run in which the keys [done] were
    written, every node is entered only after each key it reads that some
    other node sets has been written. *)
Fixpoint reads_ready (done : list Key) (t : list GraphEvent) : bool :=
  match t with
  | [] => true
  | Wrote k :: t' => reads_ready (k :: done) t'
  | Entered node :: t' =>
      forallb (fun k => implb (set_upstream node k) (key_in k done)) (reads node)
      && reads_ready done t'
  end.

(** The requests one document gives rise to with the provider [r]: the
    extraction request built from the run's criteria and the document's own
    cleaned text, alone when the provider refused it, and otherwise followed
    by the verification request built from the same state and the
    provider's answer. *)
Definition document_requests
           (r : list ChatRequest -> ChatRequest -> outcome AIMessage)
           (api_key model_name criteria : str)
           (file_obj : UploadedFile) (reqs : list ChatRequest) : Prop :=
  exists raw_text history,
    (forall w0, extract_text_from_pdf file_obj w0 = (Return raw_text, w0))
    /\ ((exists e,
            r history (extraction_request api_key model_name
                                          (cleaned file_obj raw_text criteria))
            = Raise e
            /\ reqs = [extraction_request api_key model_name
                                          (cleaned file_obj raw_text criteria)])
        \/ (exists a1,
               r history (extraction_request api_key model_name
                                             (cleaned file_obj raw_text criteria))
               = Return a1
               /\ reqs = [extraction_request api_key model_name
                                             (cleaned file_obj raw_text criteria);
                          verification_request api_key model_name
                            (set K_extracted_data (content a1)
                                 (cleaned file_obj raw_text criteria))])).

(** The provider answers whatever it is asked. *)
Definition always_answers (w : World) : Prop :=
  forall history request, exists a, remote w history request = Return a.

End Script.

Import Script.

(** ** Sample documents and providers *)

Module Samples.

(** A provider that answers every request with the same text. *)
Definition answering : list ChatRequest -> ChatRequest -> outcome AIMessage :=
  fun _ _ => Return {| content := lit "Aspirin" |}.

(** A provider that refuses every request. *)
Definition failing : list ChatRequest -> ChatRequest -> outcome AIMessage :=
  fun _ _ => Raise (lit "Error code: 401 - Authentication Fails").

(** A provider with a quota: it answers the first two requests and
    refuses every later one. *)
Definition refusing_later : list ChatRequest -> ChatRequest -> outcome AIMessage :=
  fun history _ =>
    if Nat.ltb (List.length history) 2
    then Return {| content := lit "Aspirin" |}
    else Raise (lit "Error code: 429 - Rate limit reached").

Definition pdf (file : string) (texts : list str) : UploadedFile :=
  {| name := lit file;
     PdfReader := Return (map text_page texts) |}.

(** The one-page document of the specification's scenario. *)
Definition aspirin_pdf : UploadedFile :=
  pdf "aspirin.pdf" [lit "Drug: Aspirin. n=100."].

(** One page whose text has an empty line in it. *)
Definition gap_pdf : UploadedFile :=
  pdf "gap.pdf" [lit "a

b"].

(** A readable PDF without pages, and one whose pages hold no text. *)
Definition no_pages_pdf : UploadedFile := pdf "empty.pdf" [].
Definition blank_pages_pdf : UploadedFile := pdf "scan.pdf" [[]; []].

(** A file pypdf cannot open. *)
Definition broken_pdf : UploadedFile :=
  {| name := lit "broken.pdf";
     PdfReader := Raise (lit "EOF marker not found") |}.

(** A text of 30005 characters. *)
Definition long_text : str := repeat 97%N (N.to_nat 30005).

Definition key : str := lit "sk-test".
Definition chat : str := lit "deepseek-chat".
Definition drug_only : str := lit "extract drug name only".

End Samples.

(** ** Further vocabulary *)

Module More.

(** The characters of a text that are not whitespace, in order. *)
Definition nonspace (s : str) : str := filter (fun c => negb (isspace c)) s.

(** The lines that the cleaning expression keeps. *)
Definition kept_lines (text : str) : list str :=
  filter (fun line => truthy (strip line)) (split nl text).

(** [c in s] *)
Definition occurs (c : char) (s : str) : bool := existsb (N.eqb c) s.

(** A character of the truncation note that the rest of filter_agent's
    f-string does not use. *)
Definition note_mark : char := 25130%N.

(** The truncation note before and after its mark. *)
Definition note_before : str := lit " ... (内容过长已".
Definition note_after : str := lit "断，请基于全量理解)".

(** What a run of the graph for one document comes to in the world [w]:
    the provider's refusal of either call, or the final state. *)
Definition run_outcome (w : World) (api_key model_name criteria : str)
           (file_obj : UploadedFile) (raw_text : str) : outcome LiteratureState :=
  let s1 := cleaned file_obj raw_text criteria in
  let r1 := extraction_request api_key model_name s1 in
  match remote w (llm_calls w) r1 with
  | Raise e => Raise e
  | Return a1 =>
      let s2 := set K_extracted_data (content a1) s1 in
      let r2 := verification_request api_key model_name s2 in
      match remote w (llm_calls w ++ [r1]) r2 with
      | Raise e => Raise e
      | Return a2 => Return (set K_quality_report (content a2) s2)
      end
  end.

(** What the page shows for one file, by how its run ended. *)
Definition shown_for (pdf_file : UploadedFile) (o : outcome LiteratureState)
           (total_files idx : nat) : list UiEvent :=
  [st_expander (lit "📄 文件: " ++ name pdf_file);
   st_spinner (lit "正在读取并分析 " ++ name pdf_file ++ lit " ...")]
  ++ match o with
     | Return result =>
         [st_columns [2%N; 1%N];
          st_subheader (lit "🔍 数据提取结果");
          st_markdown (extracted_data result);
          st_subheader (lit "🛡️ 监督者报告");
          st_info (quality_report result)]
     | Raise e => [st_error (lit "处理失败: " ++ e)]
     end
  ++ [st_progress (idx + 1) total_files].

(** What the page shows for the files from index [idx] on. *)
Fixpoint blocks_for (total_files idx : nat) (files : list UploadedFile)
         (outcomes : list (outcome LiteratureState)) : list UiEvent :=
  match files, outcomes with
  | f :: files', o :: outcomes' =>
      shown_for f o total_files idx ++ blocks_for total_files (S idx) files' outcomes'
  | _, _ => []
  end.

(** The values the progress bar was set to. *)
Definition progress_of (ui : list UiEvent) : list (nat * nat) :=
  flat_map (fun e => match e with st_progress n d => [(n, d)] | _ => [] end) ui.

(** The failures reported on the page. *)
Definition errors_of (ui : list UiEvent) : list str :=
  flat_map (fun e => match e with st_error m => [m] | _ => [] end) ui.

Definition failures (outcomes : list (outcome LiteratureState)) : list exception :=
  flat_map (fun o => match o with Raise e => [e] | Return _ => [] end) outcomes.

(** [os.environ.get(k)] *)
Fixpoint getenv (env : list (str * str)) (k : str) : option str :=
  match env with
  | [] => None
  | (k', v) :: rest => if str_eqb k' k then Some v else getenv rest k
  end.

(** A readable one-page PDF that carries the name of [Samples.broken_pdf]
    and the very text the extractor returns for it. *)
Definition says_broken_pdf : UploadedFile :=
  Samples.pdf "broken.pdf" [lit "Error reading PDF: EOF marker not found"].

(** *** The runs of a whole upload, request by request *)

(** The text the extractor returns for a file (it depends on nothing
    else). *)
Definition document_text (file_obj : UploadedFile) : str :=
  match fst (extract_text_from_pdf file_obj
                                   (fresh_world (fun _ _ => Raise []))) with
  | Return text => text
  | Raise _ => []
  end.

(** A world in which the provider [r] has received the requests
    [history]. *)
Definition at_history (r : list ChatRequest -> ChatRequest -> outcome AIMessage)
           (history : list ChatRequest) : World :=
  {| remote := r; llm_calls := history; st_output := [];
     environ := []; graph_trace := [] |}.

(** The requests one document makes when the provider [r] has received
    [history]: its extraction request, and after an answer to it its
    verification request. *)
Definition requests_of_document
           (r : list ChatRequest -> ChatRequest -> outcome AIMessage)
           (history : list ChatRequest) (api_key model_name criteria : str)
           (file_obj : UploadedFile) : list ChatRequest :=
  let s1 := cleaned file_obj (document_text file_obj) criteria in
  let r1 := extraction_request api_key model_name s1 in
  match r history r1 with
  | Raise _ => [r1]
  | Return a1 =>
      [r1; verification_request api_key model_name
                                (set K_extracted_data (content a1) s1)]
  end.

(** The requests of the files, one file after the other, each at the
    history the files before it have left. *)
Fixpoint requests_of_files
         (r : list ChatRequest -> ChatRequest -> outcome AIMessage)
         (history : list ChatRequest) (api_key model_name criteria : str)
         (files : list UploadedFile) : list ChatRequest :=
  match files with
  | [] => []
  | f :: rest =>
      requests_of_document r history api_key model_name criteria f
      ++ requests_of_files
           r (history ++ requests_of_document r history api_key model_name criteria f)
           api_key model_name criteria rest
  end.

(** How many of the files had their extraction request refused. *)
Fixpoint refused_extractions
         (r : list ChatRequest -> ChatRequest -> outcome AIMessage)
         (history : list ChatRequest) (api_key model_name criteria : str)
         (files : list UploadedFile) : nat :=
  match files with
  | [] => 0
  | f :: rest =>
      match r history (extraction_request api_key model_name
                         (cleaned f (document_text f) criteria)) with
      | Raise _ => 1
      | Return _ => 0
      end
      + refused_extractions
          r (history ++ requests_of_document r history api_key model_name criteria f)
          api_key model_name criteria rest
  end.

(** How the runs of the files end, one file after the other. *)
Fixpoint outcomes_of_files
         (r : list ChatRequest -> ChatRequest -> outcome AIMessage)
         (history : list ChatRequest) (api_key model_name criteria : str)
         (files : list UploadedFile) : list (outcome LiteratureState) :=
  match files with
  | [] => []
  | f :: rest =>
      run_outcome (at_history r history) api_key model_name criteria f
                  (document_text f)
      :: outcomes_of_files
           r (history ++ requests_of_document r history api_key model_name criteria f)
           api_key model_name criteria rest
  end.

(** Every request of [reqs], sent in this order to the provider [r] that
    had received [history], was answered. *)
Definition all_answered
           (r : list ChatRequest -> ChatRequest -> outcome AIMessage)
           (history reqs : list ChatRequest) : Prop :=
  forall before request after,
    reqs = before ++ request :: after ->
    exists a, r (history ++ before) request = Return a.

(** A request of the document [file_obj] in a run with these settings:
    built from the run's criteria and the document's own name and text,
    and, for the verification request, an answer of the provider. *)
Definition request_of_file (api_key model_name criteria : str)
           (file_obj : UploadedFile) (request : ChatRequest) : Prop :=
  request = extraction_request api_key model_name
              (cleaned file_obj (document_text file_obj) criteria)
  \/ exists a1,
      request = verification_request api_key model_name
                  (set K_extracted_data (content a1)
                       (cleaned file_obj (document_text file_obj) criteria)).

(** A value that [os.environ[k] = v] takes whatever the platform: ASCII
    characters other than U+0000, and no more of them than Windows allows
    in one variable.  On a value with U+0000 Python raises ValueError
    (embedded null byte), and on a character that the file-system encoding
    cannot encode UnicodeEncodeError; [setenv] is the assignment on the
    values that are taken. *)
Definition environ_accepts (v : str) : bool :=
  forallb (fun c => (0 <? c)%N && (c <? 128)%N) v
  && (N.of_nat (List.length v) <=? 32000)%N.

(** A key that the button handler lets through (it is not empty, so that
    the client is built with it) and that the environment takes. *)
Definition usable_key (api_key : str) : bool :=
  truthy api_key && environ_accepts api_key.

End More.

Import More.

(** ** Facts about the string operations *)

Section StringFacts.

Lemma str_eqb_eq a b : str_eqb a b = true -> a = b.
Proof.
  unfold str_eqb. destruct (list_eq_dec N.eq_dec a b); [trivial|discriminate].
Qed.

Lemma split_not_nil sep s : split sep s <> [].
Proof.
  destruct s as [|c s]; simpl; [discriminate|].
  destruct (c =? sep)%N; [discriminate|].
  destruct (split sep s); discriminate.
Qed.

Lemma split_free sep s : Forall (fun l => ~ In sep l) (split sep s).
Proof.
  induction s as [|c s IH]; simpl.
  - constructor; [intros []|constructor].
  - destruct (N.eqb_spec c sep) as [->|Hne].
    + constructor; [intros []|exact IH].
    + destruct (split sep s) as [|l ls].
      * constructor; [|constructor]. intros [Hc|[]]; congruence.
      * inversion IH; subst. constructor; [|assumption].
        intros [Hc|Hin]; [congruence|contradiction].
Qed.

Lemma split_one sep l : ~ In sep l -> split sep l = [l].
Proof.
  induction l as [|c l IH]; simpl; intros Hfree; [reflexivity|].
  destruct (N.eqb_spec c sep) as [->|_]; [exfalso; apply Hfree; now left|].
  rewrite IH; [reflexivity|]. intros Hin; apply Hfree; now right.
Qed.

Lemma split_app_sep sep l rest :
  ~ In sep l -> split sep (l ++ sep :: rest) = l :: split sep rest.
Proof.
  induction l as [|c l IH]; simpl; intros Hfree.
  - now rewrite N.eqb_refl.
  - destruct (N.eqb_spec c sep) as [->|_]; [exfalso; apply Hfree; now left|].
    rewrite IH; [reflexivity|]. intros Hin; apply Hfree; now right.
Qed.

(** Splitting what was joined gives the parts back, as long as there is a
    part and no part holds the separator. *)
Lemma split_join sep parts :
  parts <> [] -> Forall (fun l => ~ In sep l) parts ->
  split sep (join [sep] parts) = parts.
Proof.
  induction parts as [|p rest IH]; intros Hne Hfree; [congruence|].
  inversion Hfree as [|? ? Hp Hrest]; subst.
  destruct rest as [|q rest].
  - simpl. now apply split_one.
  - change (join [sep] (p :: q :: rest)) with (p ++ sep :: join [sep] (q :: rest)).
    rewrite split_app_sep by assumption.
    f_equal. apply IH; [discriminate|assumption].
Qed.

Lemma join_split sep s : join [sep] (split sep s) = s.
Proof.
  induction s as [|c s IH]; simpl; [reflexivity|].
  destruct (N.eqb_spec c sep) as [->|_].
  - pose proof (split_not_nil sep s) as Hne.
    destruct (split sep s) as [|l ls]; [congruence|].
    simpl in *. now rewrite IH.
  - pose proof (split_not_nil sep s) as Hne.
    destruct (split sep s) as [|l ls]; [congruence|].
    destruct ls; simpl in *; now rewrite <- IH.
Qed.

Lemma lstrip_nil_iff s : lstrip s = [] <-> forallb isspace s = true.
Proof.
  induction s as [|c s IH]; simpl; [tauto|].
  destruct (isspace c); simpl; [exact IH|].
  split; discriminate.
Qed.

Lemma forallb_rev (A : Type) (f : A -> bool) l :
  forallb f (rev l) = forallb f l.
Proof.
  induction l as [|a l IH]; simpl; [reflexivity|].
  rewrite forallb_app, IH. simpl. rewrite andb_true_r. apply andb_comm.
Qed.

Lemma forallb_lstrip s : forallb isspace (lstrip s) = forallb isspace s.
Proof.
  induction s as [|c s IH]; simpl; [reflexivity|].
  destruct (isspace c) eqn:E; simpl; [exact IH|now rewrite E].
Qed.

(** [s.strip()] is falsy exactly when [s] is empty or whitespace only. *)
Lemma strip_truthy s : truthy (strip s) = negb (blank s).
Proof.
  unfold strip, rstrip, blank.
  destruct (forallb isspace s) eqn:E.
  - assert (H : lstrip s = []) by now apply lstrip_nil_iff.
    rewrite H. reflexivity.
  - destruct (rev (lstrip (rev (lstrip s)))) as [|c r] eqn:R; [exfalso|reflexivity].
    apply (f_equal (@rev _)) in R. rewrite rev_involutive in R. simpl in R.
    apply lstrip_nil_iff in R. rewrite forallb_rev, forallb_lstrip in R.
    congruence.
Qed.

Lemma startswith_app old rest : startswith old (old ++ rest) = true.
Proof.
  induction old as [|c old IH]; simpl; [reflexivity|].
  now rewrite N.eqb_refl, IH.
Qed.

(** Once a non-empty [old] occurs in [s] beyond the characters still to be
    skipped, the result of the replacement holds [new] in one piece. *)
Lemma replace_from_holds_new old new :
  old <> [] ->
  forall s skip before rest,
    s = before ++ old ++ rest -> skip <= List.length before ->
    exists pre post, replace_from old new s skip = pre ++ new ++ post.
Proof.
  intros Hold s. induction s as [|c s IH]; intros skip before rest Hs Hskip.
  - destruct before; destruct old; simpl in Hs; congruence.
  - simpl. destruct skip as [|k].
    + destruct (startswith old (c :: s)) eqn:E.
      * exists [], (replace_from old new s (List.length old - 1)). reflexivity.
      * destruct before as [|b before].
        { simpl in Hs. rewrite Hs, startswith_app in E. discriminate. }
        simpl in Hs. injection Hs as -> ->.
        destruct (IH 0 before rest eq_refl) as (pre & post & H); [apply Nat.le_0_l|].
        exists (b :: pre), post. simpl. now rewrite H.
    + destruct before as [|b before]; [simpl in Hskip; lia|].
      simpl in Hs, Hskip. injection Hs as -> ->.
      apply (IH k before rest eq_refl). lia.
Qed.

Lemma replace_holds_new s old new before rest :
  old <> [] -> s = before ++ old ++ rest ->
  exists pre post, replace s old new = pre ++ new ++ post.
Proof.
  intros Hold Hs. unfold replace.
  destruct old as [|c old]; [congruence|].
  eapply replace_from_holds_new; [discriminate|exact Hs|apply Nat.le_0_l].
Qed.

Lemma slice_to_prefix n s : exists rest, s = slice_to n s ++ rest.
Proof. exists (skipn (N.to_nat n) s). unfold slice_to. now rewrite firstn_skipn. Qed.

Lemma slice_to_length n s : (N.of_nat (List.length (slice_to n s)) <= n)%N.
Proof.
  unfold slice_to. rewrite length_firstn. lia.
Qed.

Lemma slice_to_short n s :
  (N.of_nat (List.length s) <= n)%N -> slice_to n s = s.
Proof.
  intros H. unfold slice_to. apply firstn_all2. lia.
Qed.

End StringFacts.

(** ** The Cleaning step *)

Section Cleaning.

Lemma filter_keeps_blank lines :
  filter (fun line => truthy (strip line)) lines
  = filter (fun line => negb (blank line)) lines.
Proof. apply filter_ext. intros line. apply strip_truthy. Qed.

Lemma kept_lines_free text :
  Forall (fun l => ~ In nl l)
         (filter (fun line => truthy (strip line)) (split nl text)).
Proof.
  apply Forall_forall. intros l Hl. apply filter_In in Hl as [Hl _].
  pose proof (split_free nl text) as F.
  rewrite Forall_forall in F. now apply F.
Qed.

(** The lines of the cleaned text are the lines that were kept; when none
    was kept the cleaned text is empty. *)
Lemma clean_text_lines text :
  let kept := filter (fun line => truthy (strip line)) (split nl text) in
  (kept = [] /\ clean_text text = [])
  \/ (kept <> [] /\ split nl (clean_text text) = kept).
Proof.
  intros kept. unfold clean_text. fold kept.
  destruct kept as [|l ls] eqn:E.
  - left. split; reflexivity.
  - right. split; [discriminate|].
    rewrite <- E. apply split_join; [rewrite E; discriminate|].
    subst kept. apply kept_lines_free.
Qed.

Lemma filter_idem (A : Type) (f : A -> bool) l :
  filter f (filter f l) = filter f l.
Proof.
  induction l as [|a l IH]; simpl; [reflexivity|].
  destruct (f a) eqn:E; simpl; [rewrite E, IH; reflexivity|exact IH].
Qed.

Lemma clean_text_fixed text : clean_text (clean_text text) = clean_text text.
Proof.
  destruct (clean_text_lines text) as [[_ H]|[_ H]].
  - rewrite H. reflexivity.
  - unfold clean_text at 1. rewrite H, filter_idem. reflexivity.
Qed.

(** C2. For every input text, the Cleaning step returns the lines of the
    input (the pieces between newlines) that are not blank, in their order
    and unchanged, joined by newlines.  The result is either the empty text
    (when no line was kept) or a text whose lines are exactly the kept
    lines, so no line of it is empty or whitespace only. *)
Theorem cleaning_step_contract (text : str) :
  clean_text text
  = join [nl] (filter (fun line => negb (blank line)) (split nl text))
  /\ ((filter (fun line => negb (blank line)) (split nl text) = []
       /\ clean_text text = [])
      \/ split nl (clean_text text)
         = filter (fun line => negb (blank line)) (split nl text))
  /\ (clean_text text = []
      \/ Forall (fun line => blank line = false) (split nl (clean_text text))).
Proof.
  pose proof (clean_text_lines text) as L. cbv zeta in L.
  rewrite filter_keeps_blank in L.
  split; [|split].
  - unfold clean_text. now rewrite filter_keeps_blank.
  - destruct L as [L|[_ L]]; [now left|now right].
  - destruct L as [[_ L]|[_ L]]; [now left|right].
    rewrite L. apply Forall_forall. intros l Hl.
    apply filter_In in Hl as [_ Hl]. now apply negb_true_iff.
Qed.

(** C9. Cleaning is idempotent: a cleaned text is a fixed point of the
    cleaning expression. *)
Theorem cleaning_step_idempotent (text : str) :
  clean_text (clean_text text) = clean_text text.
Proof. apply clean_text_fixed. Qed.

(** Blank lines go, the others stay as they are, spaces included. *)
Example cleaning_sample :
  clean_text (lit "Drug: Aspirin.

  n=100  
 	 
end
")
  = lit "Drug: Aspirin.
  n=100  
end".
Proof. vm_compute. reflexivity. Qed.

(** A text of blank lines only is cleaned to the empty text. *)
Example cleaning_blank_text :
  clean_text [] = [] /\ clean_text (lit "
   

") = [].
Proof. vm_compute. split; reflexivity. Qed.

End Cleaning.

(** ** The Document Extractor *)

Section Extractor.

Lemma add_page_step text p w :
  add_page text p w
  = match extract_text p with
    | Return c => (Return (if truthy c then text ++ c ++ [nl] else text), w)
    | Raise e => (Raise e, w)
    end.
Proof.
  unfold add_page, bind, lift, ret.
  destruct (extract_text p) as [c|e]; [|reflexivity].
  destruct (truthy c); reflexivity.
Qed.

Lemma for_each_cons (A S : Type) (x : A) xs (acc : S) body w :
  for_each (x :: xs) acc body w
  = match body acc x w with
    | (Return a, w') => for_each xs a body w'
    | (Raise e, w') => (Raise e, w')
    end.
Proof. reflexivity. Qed.

Lemma terminated_join texts :
  filter truthy texts <> [] ->
  terminated texts = join [nl] (filter truthy texts) ++ [nl].
Proof.
  unfold terminated. induction (filter truthy texts) as [|t ts IH]; intros H.
  - congruence.
  - destruct ts as [|t' ts].
    + simpl. now rewrite app_nil_r.
    + change (join [nl] (t :: t' :: ts)) with (t ++ [nl] ++ join [nl] (t' :: ts)).
      change (List.concat (map (fun t => t ++ [nl]) (t :: t' :: ts)))
        with ((t ++ [nl]) ++ List.concat (map (fun t => t ++ [nl]) (t' :: ts))).
      rewrite IH by discriminate. now rewrite <- !app_assoc.
Qed.

(** The loop leaves the world as it found it, and what it computes does
    not depend on the world. *)
Lemma pages_loop_pure pages : forall text,
  exists o, forall w, for_each pages text add_page w = (o, w).
Proof.
  induction pages as [|p pages IH]; intros text.
  - exists (Return text). reflexivity.
  - destruct (extract_text p) as [c|e] eqn:E.
    + destruct (IH (if truthy c then text ++ c ++ [nl] else text)) as [o Ho].
      exists o. intros w. now rewrite for_each_cons, add_page_step, E.
    + exists (Raise e). intros w. now rewrite for_each_cons, add_page_step, E.
Qed.

Lemma pages_loop_readable texts : forall text w,
  for_each (map text_page texts) text add_page w
  = (Return (text ++ terminated texts), w).
Proof.
  induction texts as [|t texts IH]; intros text w.
  - unfold terminated. simpl. now rewrite app_nil_r.
  - change (map text_page (t :: texts)) with (text_page t :: map text_page texts).
    rewrite for_each_cons, add_page_step.
    change (extract_text (text_page t)) with (Return t).
    cbv iota beta. rewrite IH. unfold terminated. simpl filter.
    destruct (truthy t); [|reflexivity].
    simpl. now rewrite <- !app_assoc.
Qed.

Lemma pages_loop_raises texts e rest : forall text w,
  for_each (map text_page texts ++ {| extract_text := Raise e |} :: rest)
           text add_page w
  = (Raise e, w).
Proof.
  induction texts as [|t texts IH]; intros text w.
  - simpl app. now rewrite for_each_cons, add_page_step.
  - change (map text_page (t :: texts)) with (text_page t :: map text_page texts).
    rewrite <- app_comm_cons, for_each_cons, add_page_step.
    change (extract_text (text_page t)) with (Return t).
    cbv iota beta. apply IH.
Qed.

Lemma extract_unfold f w :
  extract_text_from_pdf f w
  = match PdfReader f with
    | Raise e => (Return (lit "Error reading PDF: " ++ e), w)
    | Return pages =>
        match for_each pages [] add_page w with
        | (Return text, w') => (Return text, w')
        | (Raise e, w') => (Return (lit "Error reading PDF: " ++ e), w')
        end
    end.
Proof.
  unfold extract_text_from_pdf, try_except, bind, lift, ret.
  destruct (PdfReader f) as [pages|e]; [|reflexivity].
  destruct (for_each pages [] add_page w) as [[text|e] w']; reflexivity.
Qed.

(** The extractor always returns a text and touches nothing. *)
Lemma extract_returns f : exists text, forall w,
  extract_text_from_pdf f w = (Return text, w).
Proof.
  destruct (PdfReader f) as [pages|e] eqn:R.
  - destruct (pages_loop_pure pages []) as [[text|e] L].
    + exists text. intros w. now rewrite extract_unfold, R, L.
    + exists (lit "Error reading PDF: " ++ e). intros w.
      now rewrite extract_unfold, R, L.
  - exists (lit "Error reading PDF: " ++ e). intros w.
    now rewrite extract_unfold, R.
Qed.

Lemma extract_readable f texts w :
  readable f texts ->
  extract_text_from_pdf f w = (Return (terminated texts), w).
Proof.
  unfold readable. intros R. rewrite extract_unfold, R.
  now rewrite pages_loop_readable.
Qed.

Lemma extract_unreadable f e w :
  PdfReader f = Raise e ->
  extract_text_from_pdf f w = (Return (lit "Error reading PDF: " ++ e), w).
Proof. intros R. now rewrite extract_unfold, R. Qed.

Lemma extract_bad_page f texts e rest w :
  PdfReader f
  = Return (map text_page texts
            ++ {| extract_text := Raise e |} :: rest) ->
  extract_text_from_pdf f w = (Return (lit "Error reading PDF: " ++ e), w).
Proof.
  intros R. rewrite extract_unfold, R.
  now rewrite pages_loop_raises.
Qed.

Lemma terminated_empty texts :
  Forall (fun t => t = []) texts -> terminated texts = [].
Proof.
  unfold terminated. induction 1 as [|t texts Ht _ IH]; [reflexivity|].
  subst t. exact IH.
Qed.

End Extractor.

(** ** One run of the graph for one document *)

Section Run.

Variables api_key model_name criteria : str.
Variable file_obj : UploadedFile.

(** What [process_document] does, for the text the extractor returned: the
    run ends where the first model call fails, or after Verification. *)
Lemma process_document_run_on raw_text w :
  (forall w0, extract_text_from_pdf file_obj w0 = (Return raw_text, w0)) ->
  let env := keyed_environ api_key w in
  let s1 := cleaned file_obj raw_text criteria in
  let r1 := extraction_request api_key model_name s1 in
  process_document api_key model_name file_obj criteria w
  = match remote w (llm_calls w) r1 with
    | Raise e => (Raise e, advance w env [r1] trace_extraction_failed [])
    | Return a1 =>
        let s2 := set K_extracted_data (content a1) s1 in
        let r2 := verification_request api_key model_name s2 in
        match remote w (llm_calls w ++ [r1]) r2 with
        | Raise e => (Raise e, advance w env [r1; r2] trace_verification_failed [])
        | Return a2 =>
            (Return (set K_quality_report (content a2) s2),
             advance w env [r1; r2] trace_completed [])
        end
    end.
Proof.
  intros Hx env s1 r1.
  unfold process_document, bind at 1.
  unfold setenv at 1. cbv iota beta.
  unfold bind at 1. rewrite Hx. cbv iota beta.
  unfold invoke, recursion_limit, build_workflow.
  cbn [run add_edge add_node empty_graph nodes edges app assoc START END String.eqb Ascii.eqb Bool.eqb fst snd map for_each].
  unfold bind, trace, pdf_loader_agent, filter_agent, monitor_agent,
    llm_invoke, ret.
  cbn [remote llm_calls st_output environ graph_trace map fst snd for_each
       merge fold_left].
  unfold bind, trace, ret.
  cbn [remote llm_calls st_output environ graph_trace].
  fold s1. change (set K_raw_content (clean_text (raw_content (initial_state file_obj raw_text criteria))) (initial_state file_obj raw_text criteria)) with s1.
  change {| client := deepseek api_key model_name;
            messages := [HumanMessage (real_msg s1)] |} with r1.
  assert (Henv : (lit "DEEPSEEK_API_KEY", api_key)
                 :: filter (fun kv : str * str =>
                              negb (str_eqb (fst kv) (lit "DEEPSEEK_API_KEY")))
                           (environ w) = env) by reflexivity.
  rewrite Henv. clear Henv.
  destruct (remote w (llm_calls w) r1) as [a1|e].
  - cbn [map fst snd for_each merge fold_left bind ret
         remote llm_calls st_output environ graph_trace].
    unfold bind, ret.
    cbn [remote llm_calls st_output environ graph_trace].
    change {| client := deepseek api_key model_name;
              messages := [HumanMessage
                             (monitor_prompt (set K_extracted_data (content a1) s1))] |}
      with (verification_request api_key model_name
              (set K_extracted_data (content a1) s1)).
    destruct (remote w (llm_calls w ++ [r1])
                (verification_request api_key model_name
                   (set K_extracted_data (content a1) s1))) as [a2|e].
    + cbn [map fst snd for_each merge fold_left bind ret
           remote llm_calls st_output environ graph_trace].
      unfold bind, ret, advance, trace_completed, trace_verification_failed,
        trace_extraction_failed.
      cbn [remote llm_calls st_output environ graph_trace].
      now rewrite <- !app_assoc, app_nil_r.
    + unfold advance, trace_verification_failed, trace_extraction_failed.
      now rewrite <- !app_assoc, app_nil_r.
  - unfold advance, trace_extraction_failed.
    now rewrite <- !app_assoc, app_nil_r.
Qed.

End Run.

(** ** The Extraction step sends the whole text *)

Section Extraction.

Lemma truncation_note_not_nil old : old ++ truncation_note <> [].
Proof.
  intros H. apply (f_equal (@List.length _)) in H.
  rewrite length_app in H. vm_compute (List.length truncation_note) in H.
  simpl in H. lia.
Qed.

(** The text of [real_msg] holds the raw content in one piece. *)
Lemma real_msg_holds_text state :
  exists pre post, real_msg state = pre ++ raw_content state ++ post.
Proof.
  unfold real_msg.
  eapply (@replace_holds_new _ _ _
            (filter_head ++ screening_criteria state ++ filter_middle) filter_tail).
  - apply truncation_note_not_nil.
  - unfold filter_prompt. now rewrite <- !app_assoc.
Qed.

Lemma process_document_run api_key model_name criteria file_obj :
  exists raw_text,
    (forall w0, extract_text_from_pdf file_obj w0 = (Return raw_text, w0))
    /\ forall w,
      let env := keyed_environ api_key w in
      let s1 := cleaned file_obj raw_text criteria in
      let r1 := extraction_request api_key model_name s1 in
      process_document api_key model_name file_obj criteria w
      = match remote w (llm_calls w) r1 with
        | Raise e => (Raise e, advance w env [r1] trace_extraction_failed [])
        | Return a1 =>
            let s2 := set K_extracted_data (content a1) s1 in
            let r2 := verification_request api_key model_name s2 in
            match remote w (llm_calls w ++ [r1]) r2 with
            | Raise e =>
                (Raise e, advance w env [r1; r2] trace_verification_failed [])
            | Return a2 =>
                (Return (set K_quality_report (content a2) s2),
                 advance w env [r1; r2] trace_completed [])
            end
        end.
Proof.
  destruct (extract_returns file_obj) as [raw_text Hx].
  exists raw_text. split; [exact Hx|].
  intros w. now apply process_document_run_on.
Qed.

(** C1. For every document the message that the Extraction step sends to the
    model holds the whole cleaned text of the document in one piece,
    whatever its length: this holds of [filter_agent] on any state, and of
    the first request of every run of [process_document], whose text is the
    cleaned output of the extractor. *)
Theorem extraction_sends_full_text
        (api_key model_name criteria : str) (file_obj : UploadedFile)
        (llm : ChatOpenAI) (state : LiteratureState) (w : World) :
  (exists pre post,
      llm_calls (snd (filter_agent llm state w))
      = llm_calls w
        ++ [{| client := llm;
               messages := [HumanMessage (pre ++ raw_content state ++ post)] |}])
  /\ (exists raw_text pre post later,
         (forall w0, extract_text_from_pdf file_obj w0 = (Return raw_text, w0))
         /\ llm_calls (snd (process_document api_key model_name file_obj criteria w))
            = llm_calls w
              ++ {| client := deepseek api_key model_name;
                    messages := [HumanMessage (pre ++ clean_text raw_text ++ post)] |}
                 :: later).
Proof.
  split.
  - destruct (real_msg_holds_text state) as (pre & post & H).
    exists pre, post. rewrite <- H.
    unfold filter_agent, bind, llm_invoke, ret.
    destruct (remote w (llm_calls w) _); reflexivity.
  - destruct (process_document_run api_key model_name criteria file_obj)
      as (raw_text & Hx & Hrun).
    destruct (real_msg_holds_text (cleaned file_obj raw_text criteria))
      as (pre & post & H).
    change (raw_content (cleaned file_obj raw_text criteria))
      with (clean_text raw_text) in H.
    exists raw_text, pre, post.
    rewrite Hrun. cbv zeta. unfold extraction_request at 1. rewrite H.
    destruct (remote w (llm_calls w) _) as [a1|e].
    + destruct (remote w (llm_calls w ++ _) _) as [a2|e];
        eexists; (split; [exact Hx|]); unfold advance, extraction_request;
        cbn [llm_calls snd]; rewrite H; reflexivity.
    + exists []. split; [exact Hx|]. unfold advance, extraction_request.
      cbn [llm_calls snd]. rewrite H. reflexivity.
Qed.

End Extraction.

Section ExtractionExamples.

Import Samples.

(** A text longer than the 30000 characters of the excerpt goes out whole. *)
Example long_text_sent_whole :
  let state := initial_state aspirin_pdf long_text drug_only in
  List.length (raw_content state) = N.to_nat 30005
  /\ real_msg state
     = filter_head ++ drug_only ++ filter_middle ++ long_text ++ filter_tail.
Proof.
  cbv zeta. split.
  - apply Nat.eqb_eq. vm_compute. reflexivity.
  - apply str_eqb_eq. vm_compute. reflexivity.
Qed.

(** The scenario of the specification: the model receives the cleaned text
    of the one-page document inside the prompt. *)
Example aspirin_scenario :
  fst (extract_text_from_pdf aspirin_pdf (fresh_world answering))
  = Return (lit "Drug: Aspirin. n=100.
")
  /\ map messages
         (llm_calls (snd (process_document key chat aspirin_pdf drug_only
                                           (fresh_world answering))))
     = [[HumanMessage (filter_head ++ drug_only ++ filter_middle
                       ++ lit "Drug: Aspirin. n=100." ++ filter_tail)];
        [HumanMessage (monitor_template drug_only (lit "Aspirin")
                                        (lit "Drug: Aspirin. n=100."))]].
Proof. vm_compute. split; reflexivity. Qed.

End ExtractionExamples.

(** ** The Verification step's excerpt *)

Section Verification.

Import Samples.

(** C3, as the code has it. For every document the excerpt in the
    Verification step's prompt is the first 5000 characters of the cleaned
    text, the value of raw_content after the Cleaning step (the whole
    cleaned text when it is shorter), and never more than 5000 characters:
    a run sends the extraction request alone, when the provider refused it,
    and otherwise follows it with the verification request built from the
    criteria, the provider's answer and that excerpt. *)
Theorem verification_excerpt_of_cleaned_text
        (api_key model_name criteria : str) (file_obj : UploadedFile) (w : World) :
  exists raw_text,
    (forall w0, extract_text_from_pdf file_obj w0 = (Return raw_text, w0))
    /\ (N.of_nat (List.length (slice_to 5000 (clean_text raw_text))) <= 5000)%N
    /\ (exists rest,
           clean_text raw_text = slice_to 5000 (clean_text raw_text) ++ rest)
    /\ ((N.of_nat (List.length (clean_text raw_text)) <= 5000)%N ->
        slice_to 5000 (clean_text raw_text) = clean_text raw_text)
    /\ ((exists e,
            remote w (llm_calls w)
                   (extraction_request api_key model_name
                                       (cleaned file_obj raw_text criteria))
            = Raise e)
        /\ llm_calls (snd (process_document api_key model_name file_obj criteria w))
           = llm_calls w
             ++ [extraction_request api_key model_name
                                    (cleaned file_obj raw_text criteria)]
        \/ exists a1,
          remote w (llm_calls w)
                 (extraction_request api_key model_name
                                     (cleaned file_obj raw_text criteria))
          = Return a1
          /\ llm_calls (snd (process_document api_key model_name file_obj criteria w))
          = llm_calls w
            ++ [extraction_request api_key model_name
                                   (cleaned file_obj raw_text criteria);
                {| client := deepseek api_key model_name;
                   messages :=
                     [HumanMessage
                        (monitor_template criteria (content a1)
                           (slice_to 5000 (clean_text raw_text)))] |}]).
Proof.
  destruct (process_document_run api_key model_name criteria file_obj)
    as (raw_text & Hx & Hrun).
  exists raw_text. split; [exact Hx|].
  split; [apply slice_to_length|].
  split; [apply slice_to_prefix|].
  split; [apply slice_to_short|].
  rewrite Hrun. cbv zeta.
  destruct (remote w (llm_calls w) _) as [a1|e].
  - right. exists a1. split; [reflexivity|].
    destruct (remote w (llm_calls w ++ _) _) as [a2|e]; reflexivity.
  - left. split; [now exists e|reflexivity].
Qed.

(** C3 as stated fails: the text of [gap_pdf] as the extractor returns it
    has an empty line, the excerpt in the verification request is taken from
    the cleaned text, and it is not a prefix of the extractor's text. *)
Lemma verification_excerpt_not_of_raw_text :
  fst (extract_text_from_pdf gap_pdf (fresh_world answering))
  = Return (lit "a

b
")
  /\ map messages
         (skipn 1 (llm_calls (snd (process_document key chat gap_pdf drug_only
                                                    (fresh_world answering)))))
     = [[HumanMessage (monitor_template drug_only (lit "Aspirin") (lit "a
b"))]]
  /\ startswith (lit "a
b") (lit "a

b
") = false
  /\ monitor_template drug_only (lit "Aspirin") (lit "a
b")
     <> monitor_template drug_only (lit "Aspirin")
                         (slice_to 5000 (lit "a

b
")).
Proof.
  split; [vm_compute; reflexivity|].
  split; [vm_compute; reflexivity|].
  split; [vm_compute; reflexivity|].
  vm_compute. discriminate.
Qed.

End Verification.

(** ** The Document Extractor's contract *)

Section ExtractorContract.

Import Samples.

(** C5, as the code has it. The extractor never raises and leaves the world
    alone.  On a readable PDF it returns each page's non-empty text followed
    by a newline, in page order: the texts separated by newlines and one
    more newline at the end when there is a non-empty page.  When pypdf
    raises, on opening the file or on a page, it returns the text
    "Error reading PDF: " followed by the exception's message. *)
Theorem extractor_contract (uploaded_file : UploadedFile) (w : World) :
  (exists text, extract_text_from_pdf uploaded_file w = (Return text, w))
  /\ (forall texts,
         readable uploaded_file texts ->
         extract_text_from_pdf uploaded_file w = (Return (terminated texts), w)
         /\ (filter truthy texts <> [] ->
             terminated texts = join [nl] (filter truthy texts) ++ [nl]))
  /\ (forall e,
         PdfReader uploaded_file = Raise e ->
         extract_text_from_pdf uploaded_file w
         = (Return (lit "Error reading PDF: " ++ e), w))
  /\ (forall texts e rest,
         PdfReader uploaded_file
         = Return (map text_page texts
                   ++ {| extract_text := Raise e |} :: rest) ->
         extract_text_from_pdf uploaded_file w
         = (Return (lit "Error reading PDF: " ++ e), w)).
Proof.
  split; [|split; [|split]].
  - destruct (extract_returns uploaded_file) as [text H]. now exists text.
  - intros texts R. split; [now apply extract_readable|apply terminated_join].
  - intros e R. now apply extract_unreadable.
  - intros texts e rest R. now apply extract_bad_page with (texts := texts) (rest := rest).
Qed.

(** C5 as stated fails on the one-page document: its text comes back with a
    newline after it, which is not the page texts separated by newlines. *)
Lemma extractor_appends_newline :
  fst (extract_text_from_pdf aspirin_pdf (fresh_world answering))
  = Return (lit "Drug: Aspirin. n=100." ++ [nl])
  /\ join [nl] (filter truthy [lit "Drug: Aspirin. n=100."])
     = lit "Drug: Aspirin. n=100."
  /\ lit "Drug: Aspirin. n=100." ++ [nl] <> lit "Drug: Aspirin. n=100.".
Proof.
  split; [vm_compute; reflexivity|].
  split; [vm_compute; reflexivity|].
  vm_compute. discriminate.
Qed.

(** An unreadable file comes back as a message in place of the text. *)
Example broken_pdf_message :
  extract_text_from_pdf broken_pdf (fresh_world answering)
  = (Return (lit "Error reading PDF: EOF marker not found"), fresh_world answering).
Proof. vm_compute. reflexivity. Qed.

(** C10. A readable PDF none of whose pages yields text (a PDF without
    pages among them) comes back as the empty text, not as an error
    message, and the pipeline runs on it: the graph is entered, the
    Cleaning step leaves the empty text, the extraction request built from
    it goes out, and when the provider answers both calls the run returns
    the final state with the empty text in raw_content. *)
Theorem empty_document_runs
        (file_obj : UploadedFile) (texts : list str)
        (api_key model_name criteria : str) (w : World) :
  readable file_obj texts ->
  Forall (fun t => t = []) texts ->
  (forall w0, extract_text_from_pdf file_obj w0 = (Return [], w0))
  /\ raw_content (cleaned file_obj [] criteria) = []
  /\ (exists later events,
         snd (process_document api_key model_name file_obj criteria w)
         = advance w (keyed_environ api_key w)
                   (extraction_request api_key model_name
                                       (cleaned file_obj [] criteria) :: later)
                   (trace_extraction_failed ++ events) [])
  /\ (forall a1 a2,
         remote w (llm_calls w)
                (extraction_request api_key model_name (cleaned file_obj [] criteria))
         = Return a1 ->
         remote w (llm_calls w
                   ++ [extraction_request api_key model_name
                                          (cleaned file_obj [] criteria)])
                (verification_request api_key model_name
                   (set K_extracted_data (content a1)
                        (cleaned file_obj [] criteria)))
         = Return a2 ->
         fst (process_document api_key model_name file_obj criteria w)
         = Return {| file_name := name file_obj;
                     raw_content := [];
                     screening_criteria := criteria;
                     extracted_data := content a1;
                     quality_report := content a2 |}).
Proof.
  intros R E.
  assert (Hx : forall w0, extract_text_from_pdf file_obj w0 = (Return [], w0)).
  { intros w0. rewrite (extract_readable w0 R). now rewrite terminated_empty. }
  split; [exact Hx|]. split; [reflexivity|].
  pose proof (@process_document_run_on api_key model_name criteria file_obj [] w Hx)
    as Hrun.
  cbv zeta in Hrun. rewrite Hrun. split.
  - destruct (remote w (llm_calls w) _) as [a1|e].
    + destruct (remote w (llm_calls w ++ _) _) as [a2|e].
      * eexists _, _. unfold trace_completed, trace_verification_failed.
        rewrite <- !app_assoc. reflexivity.
      * eexists _, _. unfold trace_verification_failed. reflexivity.
    + exists [], []. now rewrite app_nil_r.
  - intros a1 a2 H1 H2. rewrite H1, H2. reflexivity.
Qed.

Lemma empty_document_runs_on_no_pages :
  (forall w0, extract_text_from_pdf no_pages_pdf w0 = (Return [], w0))
  /\ raw_content (cleaned no_pages_pdf [] drug_only) = []
  /\ (exists later events,
         snd (process_document key chat no_pages_pdf drug_only (fresh_world answering))
         = advance (fresh_world answering) (keyed_environ key (fresh_world answering))
                   (extraction_request key chat (cleaned no_pages_pdf [] drug_only)
                    :: later)
                   (trace_extraction_failed ++ events) [])
  /\ (forall a1 a2,
         remote (fresh_world answering) (llm_calls (fresh_world answering))
                (extraction_request key chat (cleaned no_pages_pdf [] drug_only))
         = Return a1 ->
         remote (fresh_world answering)
                (llm_calls (fresh_world answering)
                 ++ [extraction_request key chat (cleaned no_pages_pdf [] drug_only)])
                (verification_request key chat
                   (set K_extracted_data (content a1)
                        (cleaned no_pages_pdf [] drug_only)))
         = Return a2 ->
         fst (process_document key chat no_pages_pdf drug_only (fresh_world answering))
         = Return {| file_name := name no_pages_pdf;
                     raw_content := [];
                     screening_criteria := drug_only;
                     extracted_data := content a1;
                     quality_report := content a2 |}).
Proof.
  apply (@empty_document_runs no_pages_pdf [] key chat drug_only
                              (fresh_world answering)).
  - reflexivity.
  - constructor.
Defined.

(** Pages without text are skipped the same way. *)
Example blank_pages_run :
  process_document key chat blank_pages_pdf drug_only (fresh_world answering)
  = (Return {| file_name := lit "scan.pdf";
               raw_content := [];
               screening_criteria := drug_only;
               extracted_data := lit "Aspirin";
               quality_report := lit "Aspirin" |},
     advance (fresh_world answering)
             (keyed_environ key (fresh_world answering))
             [extraction_request key chat (cleaned blank_pages_pdf [] drug_only);
              verification_request key chat
                (set K_extracted_data (lit "Aspirin")
                     (cleaned blank_pages_pdf [] drug_only))]
             trace_completed []).
Proof. vm_compute. reflexivity. Qed.

End ExtractorContract.

(** ** The order of the steps and of the writes *)

Section Order.

Import Samples.

Lemma pdf_loader_reads s s' :
  raw_content s = raw_content s' -> pdf_loader_agent s = pdf_loader_agent s'.
Proof. unfold pdf_loader_agent. now intros ->. Qed.

Lemma filter_reads llm s s' :
  screening_criteria s = screening_criteria s' ->
  raw_content s = raw_content s' ->
  filter_agent llm s = filter_agent llm s'.
Proof.
  intros Hc Hr. unfold filter_agent, real_msg, filter_prompt.
  now rewrite Hc, Hr.
Qed.

Lemma monitor_reads llm s s' :
  screening_criteria s = screening_criteria s' ->
  extracted_data s = extracted_data s' ->
  raw_content s = raw_content s' ->
  monitor_agent llm s = monitor_agent llm s'.
Proof.
  intros Hc He Hr. unfold monitor_agent, monitor_prompt, monitor_excerpt.
  now rewrite Hc, He, Hr.
Qed.

(** C4, as the code has it. In every run the steps are entered at most once
    each, in the order Cleaning, Extraction, Verification, and the fields
    are written at most once each, in the order raw_content, extracted_data,
    quality_report: the trace of a run is one of three prefixes of the
    complete trace.  Cleaning and Extraction are always entered; Verification
    is entered, so that all three steps run exactly once, exactly when the
    Extraction step's model call returns, and a run that returns has the
    complete trace.  A failing model call ends the run at its step.  Each
    step's result depends only on the fields listed in [reads], and no step
    is entered before the fields it reads from an upstream step are
    written. *)
Theorem pipeline_order
        (api_key model_name criteria : str) (file_obj : UploadedFile) (w : World) :
  exists raw_text t,
    (forall w0, extract_text_from_pdf file_obj w0 = (Return raw_text, w0))
    /\ graph_trace (snd (process_document api_key model_name file_obj criteria w))
       = graph_trace w ++ t
    /\ (t = trace_extraction_failed \/ t = trace_verification_failed
        \/ t = trace_completed)
    /\ (exists rest, trace_completed = t ++ rest)
    /\ reads_ready [] t = true
    /\ ((exists a1,
            remote w (llm_calls w)
                   (extraction_request api_key model_name
                                       (cleaned file_obj raw_text criteria))
            = Return a1)
        <-> entered t = ["PDF_Loader"; "Filter"; "Monitor"]%string)
    /\ ((exists e,
            remote w (llm_calls w)
                   (extraction_request api_key model_name
                                       (cleaned file_obj raw_text criteria))
            = Raise e)
        <-> entered t = ["PDF_Loader"; "Filter"]%string)
    /\ (forall s,
           fst (process_document api_key model_name file_obj criteria w) = Return s ->
           t = trace_completed)
    /\ entered trace_completed = ["PDF_Loader"; "Filter"; "Monitor"]%string
    /\ written trace_completed
       = [K_raw_content; K_extracted_data; K_quality_report]
    /\ (forall s s',
           Forall (fun k => get k s = get k s') (reads "PDF_Loader") ->
           pdf_loader_agent s = pdf_loader_agent s')
    /\ (forall llm s s',
           Forall (fun k => get k s = get k s') (reads "Filter") ->
           filter_agent llm s = filter_agent llm s')
    /\ (forall llm s s',
           Forall (fun k => get k s = get k s') (reads "Monitor") ->
           monitor_agent llm s = monitor_agent llm s').
Proof.
  destruct (process_document_run api_key model_name criteria file_obj)
    as (raw_text & Hx & Hrun).
  exists raw_text.
  assert (Hreads :
    (forall s s',
        Forall (fun k => get k s = get k s') (reads "PDF_Loader") ->
        pdf_loader_agent s = pdf_loader_agent s')
    /\ (forall llm s s',
           Forall (fun k => get k s = get k s') (reads "Filter") ->
           filter_agent llm s = filter_agent llm s')
    /\ (forall llm s s',
           Forall (fun k => get k s = get k s') (reads "Monitor") ->
           monitor_agent llm s = monitor_agent llm s')).
  { split; [|split].
    - intros s s' F. inversion F; subst. now apply pdf_loader_reads.
    - intros llm s s' F. inversion F as [|? ? H1 F1]; subst.
      inversion F1; subst. now apply filter_reads.
    - intros llm s s' F. inversion F as [|? ? H1 F1]; subst.
      inversion F1 as [|? ? H2 F2]; subst. inversion F2; subst.
      now apply monitor_reads. }
  rewrite Hrun. cbv zeta.
  destruct (remote w (llm_calls w) _) as [a1|e].
  - destruct (remote w (llm_calls w ++ _) _) as [a2|e].
    + exists trace_completed. repeat split; auto; try apply Hreads.
      * exists []. now rewrite app_nil_r.
      * now exists a1.
      * intros [e He]. discriminate.
      * intros He. vm_compute in He. discriminate.
    + exists trace_verification_failed. repeat split; auto; try apply Hreads.
      * exists [Wrote K_quality_report]. reflexivity.
      * now exists a1.
      * intros [e' He]. discriminate.
      * intros He. vm_compute in He. discriminate.
      * intros s Hs. discriminate.
  - exists trace_extraction_failed. repeat split; auto; try apply Hreads.
    + exists [Wrote K_extracted_data; Entered "Monitor"; Wrote K_quality_report].
      reflexivity.
    + intros [a1 Ha]. discriminate.
    + intros He. vm_compute in He. discriminate.
    + now exists e.
    + intros s Hs. discriminate.
Qed.

(** C4 as stated fails when the provider refuses the Extraction step's call:
    the run raises after Cleaning and Extraction were entered, and the
    Verification step never runs. *)
Lemma verification_skipped_on_failure :
  fst (process_document key chat aspirin_pdf drug_only (fresh_world failing))
  = Raise (lit "Error code: 401 - Authentication Fails")
  /\ entered (graph_trace
                (snd (process_document key chat aspirin_pdf drug_only
                                       (fresh_world failing))))
     = ["PDF_Loader"; "Filter"]%string
  /\ written (graph_trace
                (snd (process_document key chat aspirin_pdf drug_only
                                       (fresh_world failing))))
     = [K_raw_content].
Proof. vm_compute. repeat split; reflexivity. Qed.

(** With a provider that answers, the three steps run once each. *)
Example completed_run_trace :
  graph_trace (snd (process_document key chat aspirin_pdf drug_only
                                     (fresh_world answering)))
  = [Entered "PDF_Loader"; Wrote K_raw_content;
     Entered "Filter"; Wrote K_extracted_data;
     Entered "Monitor"; Wrote K_quality_report].
Proof. vm_compute. reflexivity. Qed.

(** The check on the order of reads and writes does reject a trace in
    which a step is entered before its upstream field is written. *)
Example reads_ready_rejects :
  reads_ready [] [Entered "Filter"] = false
  /\ reads_ready [] [Entered "PDF_Loader"; Wrote K_raw_content; Entered "Monitor"]
     = false
  /\ reads_ready [] [Entered "PDF_Loader"] = true.
Proof. vm_compute. repeat split; reflexivity. Qed.

End Order.

(** ** Frame conditions *)

Section Frame.

Import Samples.

Lemma get_set_other k k' v s : k <> k' -> get k (set k' v s) = get k s.
Proof. intros H. destruct k, k'; try reflexivity; congruence. Qed.

(** Merging an update leaves every key it does not name as it was. *)
Lemma merge_frame u : forall s k,
  ~ In k (map fst u) -> get k (merge s u) = get k s.
Proof.
  induction u as [|[k' v] u IH]; intros s k Hk; [reflexivity|].
  unfold merge in *. simpl fold_left. simpl in Hk.
  rewrite IH by tauto. apply get_set_other. intros ->. apply Hk. now left.
Qed.

(** C8. Each step's update names its own field and no other: raw_content
    for Cleaning, extracted_data for Extraction, quality_report for
    Verification, so that merging it leaves every other field of the state
    as it was; and the state a run returns has the file name and the
    criteria it was started with (a run returns whenever the provider
    answers). *)
Theorem frame_condition
        (api_key model_name criteria : str) (file_obj : UploadedFile)
        (llm : ChatOpenAI) (state : LiteratureState) (w : World) :
  (exists v, pdf_loader_agent state w = (Return [(K_raw_content, v)], w))
  /\ (forall u, fst (filter_agent llm state w) = Return u ->
                map fst u = [K_extracted_data])
  /\ (forall u, fst (monitor_agent llm state w) = Return u ->
                map fst u = [K_quality_report])
  /\ (forall n f u,
         assoc n (nodes (build_workflow llm)) = Some f ->
         fst (f state w) = Return u ->
         map fst u = writes n)
  /\ (forall u k, ~ In k (map fst u) -> get k (merge state u) = get k state)
  /\ (forall s,
         fst (process_document api_key model_name file_obj criteria w) = Return s ->
         file_name s = name file_obj /\ screening_criteria s = criteria)
  /\ (always_answers w ->
      exists s,
        fst (process_document api_key model_name file_obj criteria w) = Return s).
Proof.
  assert (Hf : forall u, fst (filter_agent llm state w) = Return u ->
                         map fst u = [K_extracted_data]).
  { intros u. unfold filter_agent, bind, llm_invoke, ret.
    destruct (remote w (llm_calls w) _) as [a|e]; simpl; [|discriminate].
    now intros [= <-]. }
  assert (Hm : forall u, fst (monitor_agent llm state w) = Return u ->
                         map fst u = [K_quality_report]).
  { intros u. unfold monitor_agent, bind, llm_invoke, ret.
    destruct (remote w (llm_calls w) _) as [a|e]; simpl; [|discriminate].
    now intros [= <-]. }
  split; [now eexists|]. split; [exact Hf|]. split; [exact Hm|].
  split; [|split; [|split]].
  - intros n f u. unfold build_workflow, writes. cbn [nodes add_node add_edge empty_graph app assoc].
    destruct (String.eqb n "PDF_Loader").
    { intros [= <-]. simpl. now intros [= <-]. }
    destruct (String.eqb n "Filter").
    { intros [= <-]. apply Hf. }
    destruct (String.eqb n "Monitor").
    { intros [= <-]. apply Hm. }
    discriminate.
  - intros u k. apply merge_frame.
  - destruct (process_document_run api_key model_name criteria file_obj)
      as (raw_text & _ & Hrun).
    intros s. rewrite Hrun. cbv zeta.
    destruct (remote w (llm_calls w) _) as [a1|e]; [|discriminate].
    destruct (remote w (llm_calls w ++ _) _) as [a2|e]; [|discriminate].
    simpl. intros [= <-]. split; reflexivity.
  - destruct (process_document_run api_key model_name criteria file_obj)
      as (raw_text & _ & Hrun).
    intros A. rewrite Hrun. cbv zeta.
    destruct (A (llm_calls w)
                (extraction_request api_key model_name
                                    (cleaned file_obj raw_text criteria)))
      as [a1 ->].
    destruct (A (llm_calls w
                 ++ [extraction_request api_key model_name
                                        (cleaned file_obj raw_text criteria)])
                (verification_request api_key model_name
                   (set K_extracted_data (content a1)
                        (cleaned file_obj raw_text criteria))))
      as [a2 ->].
    now eexists.
Qed.

(** A run that returns: the file name and the criteria are the caller's. *)
Example returned_state_keeps_inputs :
  fst (process_document key chat aspirin_pdf drug_only (fresh_world answering))
  = Return {| file_name := lit "aspirin.pdf";
              raw_content := lit "Drug: Aspirin. n=100.";
              screening_criteria := drug_only;
              extracted_data := lit "Aspirin";
              quality_report := lit "Aspirin" |}.
Proof. vm_compute. reflexivity. Qed.

(** ** Missing configuration *)

(** C6. With an empty API key, or with a key and no uploaded file, the
    handler starts no run and sends nothing to the model: it leaves the
    request log, the graph trace and the environment as they were and shows
    one message, an error about the key in the first case and a warning about
    the files in the second, and the two messages differ. *)
Theorem missing_configuration_rejected
        (selected_model criteria_input : str) (uploaded_files : list UploadedFile)
        (c : char) (api_key : str) (w : World) :
  button_handler [] selected_model criteria_input uploaded_files w
  = (Return tt,
     {| remote := remote w; llm_calls := llm_calls w;
        st_output := st_output w ++ [st_error missing_key_message];
        environ := environ w; graph_trace := graph_trace w |})
  /\ button_handler (c :: api_key) selected_model criteria_input [] w
     = (Return tt,
        {| remote := remote w; llm_calls := llm_calls w;
           st_output := st_output w ++ [st_warning missing_files_message];
           environ := environ w; graph_trace := graph_trace w |})
  /\ st_error missing_key_message <> st_warning missing_files_message
  /\ missing_key_message <> missing_files_message.
Proof.
  split; [reflexivity|]. split; [reflexivity|].
  split; [discriminate|]. vm_compute. discriminate.
Qed.

(** With a key and a file the handler does start a run. *)
Example configured_run_starts :
  List.length
    (llm_calls (snd (button_handler key chat drug_only [aspirin_pdf]
                                    (fresh_world answering))))
  = 2.
Proof. vm_compute. reflexivity. Qed.

End Frame.

(** ** The per-file loop *)

Section Loop.

Import Samples.

Variables api_key selected_model criteria_input : str.

(** What one call of [process_document] sends. *)
Lemma process_document_calls (file_obj : UploadedFile) w :
  exists o reqs w',
    process_document api_key selected_model file_obj criteria_input w = (o, w')
    /\ remote w' = remote w
    /\ llm_calls w' = llm_calls w ++ reqs
    /\ document_requests (remote w) api_key selected_model criteria_input file_obj reqs
    /\ (always_answers w -> List.length reqs = 2)
    /\ 1 <= List.length reqs <= 2.
Proof.
  destruct (process_document_run api_key selected_model criteria_input file_obj)
    as (raw_text & Hx & Hrun).
  specialize (Hrun w). cbv zeta in Hrun.
  remember (extraction_request api_key selected_model
              (cleaned file_obj raw_text criteria_input)) as r1 eqn:Er1.
  destruct (remote w (llm_calls w) r1) as [a1|e] eqn:E1.
  - remember (verification_request api_key selected_model
                (set K_extracted_data (content a1)
                     (cleaned file_obj raw_text criteria_input))) as r2 eqn:Er2.
    assert (D : document_requests (remote w) api_key selected_model criteria_input
                                  file_obj [r1; r2]).
    { exists raw_text, (llm_calls w). split; [exact Hx|]. right. exists a1.
      subst r1 r2. now split. }
    destruct (remote w (llm_calls w ++ [r1]) r2) as [a2|e];
      eexists _, [r1; r2], _; (split; [exact Hrun|]);
      repeat split; auto; simpl; lia.
  - assert (D : document_requests (remote w) api_key selected_model criteria_input
                                  file_obj [r1]).
    { exists raw_text, (llm_calls w). split; [exact Hx|]. left. exists e.
      subst r1. now split. }
    eexists _, [r1], _. split; [exact Hrun|].
    repeat split; auto; simpl; try lia.
    intros A. destruct (A (llm_calls w) r1) as [a Ha]. congruence.
Qed.

Lemma show_run e w :
  exists w', show e w = (Return tt, w')
             /\ remote w' = remote w /\ llm_calls w' = llm_calls w.
Proof. eexists. repeat split. Qed.

Lemma analyse_file_run total idx (pdf_file : UploadedFile) w :
  exists reqs w',
    analyse_file api_key selected_model criteria_input total idx pdf_file w
    = (Return tt, w')
    /\ remote w' = remote w
    /\ llm_calls w' = llm_calls w ++ reqs
    /\ document_requests (remote w) api_key selected_model criteria_input pdf_file reqs
    /\ (always_answers w -> List.length reqs = 2)
    /\ 1 <= List.length reqs <= 2.
Proof.
  unfold analyse_file.
  unfold bind at 1.
  destruct (show_run (st_expander (lit "📄 文件: " ++ name pdf_file)) w)
    as (w1 & -> & R1 & C1).
  unfold bind at 1.
  destruct (show_run (st_spinner (lit "正在读取并分析 " ++ name pdf_file ++ lit " ...")) w1)
    as (w2 & -> & R2 & C2).
  unfold bind at 1, try_except, bind at 1.
  destruct (process_document_calls pdf_file w2)
    as (o & reqs & w3 & -> & R3 & C3 & D & A & L).
  exists reqs. rewrite R2, R1 in D.
  assert (Hans : always_answers w -> List.length reqs = 2).
  { intros H. apply A. intros h r. unfold always_answers in H.
    rewrite R2, R1. apply H. }
  assert (Hcalls : llm_calls w3 = llm_calls w ++ reqs) by congruence.
  assert (Hrem : remote w3 = remote w) by congruence.
  destruct o as [result|e].
  - eexists. split; [reflexivity|]. cbn [remote llm_calls]. auto.
  - eexists. split; [reflexivity|]. cbn [remote llm_calls]. auto.
Qed.

Lemma loop_run total (files : list UploadedFile) : forall idx w,
  exists per_doc w',
    for_enumerate idx files
      (analyse_file api_key selected_model criteria_input total) w
    = (Return tt, w')
    /\ remote w' = remote w
    /\ llm_calls w' = llm_calls w ++ List.concat per_doc
    /\ Forall2 (document_requests (remote w) api_key selected_model criteria_input)
               files per_doc
    /\ (always_answers w -> Forall (fun reqs => List.length reqs = 2) per_doc)
    /\ Forall (fun reqs => 1 <= List.length reqs <= 2) per_doc.
Proof.
  induction files as [|f files IH]; intros idx w.
  - exists [], w. simpl. rewrite app_nil_r. repeat split; constructor.
  - destruct (analyse_file_run total idx f w)
      as (reqs & w1 & Hrun & Hrem & Hcalls & Hdoc & Hans & Hlen).
    destruct (IH (S idx) w1)
      as (per_doc & w' & Hloop & Hrem' & Hcalls' & Hdocs & Hans' & Hlens).
    exists (reqs :: per_doc), w'.
    simpl for_enumerate. unfold bind at 1. rewrite Hrun, Hloop.
    split; [reflexivity|].
    split; [congruence|].
    split; [rewrite Hcalls', Hcalls; simpl; now rewrite app_assoc|].
    rewrite Hrem in Hdocs.
    split; [now constructor|].
    split; [|now constructor].
    intros A. constructor; [now apply Hans|].
    apply Hans'. intros h r. unfold always_answers in A.
    rewrite Hrem. apply A.
Qed.

(** *** The loop, request by request *)

Lemma show_effects e w :
  exists w', show e w = (Return tt, w')
             /\ remote w' = remote w /\ llm_calls w' = llm_calls w
             /\ st_output w' = st_output w ++ [e].
Proof. eexists. repeat split. Qed.

Lemma document_text_spec (file_obj : UploadedFile) w :
  extract_text_from_pdf file_obj w = (Return (document_text file_obj), w).
Proof.
  destruct (extract_returns file_obj) as [text Hx].
  unfold document_text. rewrite !Hx. reflexivity.
Qed.

Lemma run_outcome_at w (file_obj : UploadedFile) raw_text :
  run_outcome w api_key selected_model criteria_input file_obj raw_text
  = run_outcome (at_history (remote w) (llm_calls w))
                api_key selected_model criteria_input file_obj raw_text.
Proof. reflexivity. Qed.

(** One run of [process_document]: its outcome and the requests it
    sends. *)
Lemma process_document_exact (file_obj : UploadedFile) w :
  exists evs,
    process_document api_key selected_model file_obj criteria_input w
    = (run_outcome w api_key selected_model criteria_input file_obj
                   (document_text file_obj),
       advance w (keyed_environ api_key w)
               (requests_of_document (remote w) (llm_calls w) api_key
                                     selected_model criteria_input file_obj)
               evs []).
Proof.
  pose proof (@process_document_run_on api_key selected_model criteria_input
                file_obj (document_text file_obj) w
                (document_text_spec file_obj)) as Hrun.
  cbv zeta in Hrun. unfold run_outcome, requests_of_document. cbv zeta.
  remember (extraction_request api_key selected_model
              (cleaned file_obj (document_text file_obj) criteria_input))
    as r1 eqn:Er1.
  destruct (remote w (llm_calls w) r1) as [a1|e1].
  - remember (verification_request api_key selected_model
                (set K_extracted_data (content a1)
                     (cleaned file_obj (document_text file_obj) criteria_input)))
      as r2 eqn:Er2.
    destruct (remote w (llm_calls w ++ [r1]) r2) as [a2|e2];
      eexists; exact Hrun.
  - eexists; exact Hrun.
Qed.

(** One turn of the loop. *)
Lemma analyse_file_exact total idx (pdf_file : UploadedFile) w :
  exists w',
    analyse_file api_key selected_model criteria_input total idx pdf_file w
    = (Return tt, w')
    /\ remote w' = remote w
    /\ llm_calls w'
       = llm_calls w
         ++ requests_of_document (remote w) (llm_calls w) api_key selected_model
                                 criteria_input pdf_file
    /\ st_output w'
       = st_output w
         ++ shown_for pdf_file
              (run_outcome (at_history (remote w) (llm_calls w)) api_key
                           selected_model criteria_input pdf_file
                           (document_text pdf_file))
              total idx.
Proof.
  unfold analyse_file.
  unfold bind at 1.
  destruct (show_effects (st_expander (lit "📄 文件: " ++ name pdf_file)) w)
    as (w1 & -> & R1 & C1 & U1).
  unfold bind at 1.
  destruct (show_effects (st_spinner (lit "正在读取并分析 " ++ name pdf_file ++ lit " ...")) w1)
    as (w2 & -> & R2 & C2 & U2).
  unfold bind at 1, try_except, bind at 1.
  destruct (process_document_exact pdf_file w2) as (evs & ->).
  rewrite (run_outcome_at w2). rewrite R2, C2, R1, C1.
  set (o := run_outcome (at_history (remote w) (llm_calls w)) api_key
                        selected_model criteria_input pdf_file
                        (document_text pdf_file)).
  set (reqs := requests_of_document (remote w) (llm_calls w) api_key
                                    selected_model criteria_input pdf_file).
  set (w3 := advance w2 (keyed_environ api_key w2) reqs evs []).
  assert (R3 : remote w3 = remote w) by (unfold w3; cbn; congruence).
  assert (C3 : llm_calls w3 = llm_calls w ++ reqs)
    by (unfold w3; cbn [advance llm_calls]; congruence).
  assert (U3 : st_output w3
               = st_output w
                 ++ [st_expander (lit "📄 文件: " ++ name pdf_file);
                     st_spinner (lit "正在读取并分析 " ++ name pdf_file ++ lit " ...")]).
  { unfold w3. cbn [advance st_output]. rewrite app_nil_r, U2, U1.
    now rewrite <- app_assoc. }
  unfold shown_for.
  destruct o as [result|e]; eexists; (split; [reflexivity|]);
    cbn [remote llm_calls st_output]; (split; [exact R3|]);
    (split; [exact C3|]);
    rewrite U3, <- !app_assoc; reflexivity.
Qed.

(** The whole loop: it returns, and its requests and what it shows are
    those of the files, one after the other. *)
Lemma loop_exact total (files : list UploadedFile) : forall idx w,
  exists w',
    for_enumerate idx files
      (analyse_file api_key selected_model criteria_input total) w
    = (Return tt, w')
    /\ remote w' = remote w
    /\ llm_calls w'
       = llm_calls w
         ++ requests_of_files (remote w) (llm_calls w) api_key selected_model
                              criteria_input files
    /\ st_output w'
       = st_output w
         ++ blocks_for total idx files
              (outcomes_of_files (remote w) (llm_calls w) api_key selected_model
                                 criteria_input files).
Proof.
  induction files as [|f files IH]; intros idx w.
  - exists w. cbn [for_enumerate requests_of_files outcomes_of_files blocks_for].
    rewrite !app_nil_r. repeat split.
  - destruct (analyse_file_exact total idx f w) as (w1 & Hrun & R1 & C1 & U1).
    destruct (IH (S idx) w1) as (w' & Hloop & R' & C' & U').
    exists w'.
    cbn [for_enumerate]. unfold bind at 1. rewrite Hrun, Hloop.
    split; [reflexivity|]. split; [congruence|].
    rewrite R1, C1 in C', U'.
    split.
    + rewrite C'. cbn [requests_of_files]. now rewrite app_assoc.
    + rewrite U', U1. cbn [outcomes_of_files].
      change (blocks_for total idx (f :: files) (?o :: ?os))
        with (shown_for f o total idx ++ blocks_for total (S idx) files os).
      now rewrite <- app_assoc.
Qed.

Lemma requests_of_document_length r history (file_obj : UploadedFile) :
  List.length (requests_of_document r history api_key selected_model
                                    criteria_input file_obj)
  + match r history (extraction_request api_key selected_model
                       (cleaned file_obj (document_text file_obj) criteria_input)) with
    | Raise _ => 1
    | Return _ => 0
    end
  = 2.
Proof.
  unfold requests_of_document. cbv zeta.
  destruct (r history _); reflexivity.
Qed.

(** Two requests per file, less one for each refused extraction. *)
Lemma requests_of_files_length r (files : list UploadedFile) : forall history,
  List.length (requests_of_files r history api_key selected_model criteria_input files)
  + refused_extractions r history api_key selected_model criteria_input files
  = 2 * List.length files.
Proof.
  induction files as [|f files IH]; intros history; [reflexivity|].
  cbn [requests_of_files refused_extractions List.length].
  rewrite length_app.
  pose proof (requests_of_document_length r history f) as Hf.
  specialize (IH (history
                  ++ requests_of_document r history api_key selected_model
                                          criteria_input f)).
  lia.
Qed.

Lemma refused_extractions_bound r (files : list UploadedFile) : forall history,
  refused_extractions r history api_key selected_model criteria_input files
  <= List.length files.
Proof.
  induction files as [|f files IH]; intros history; [apply Nat.le_refl|].
  cbn [refused_extractions List.length].
  specialize (IH (history
                  ++ requests_of_document r history api_key selected_model
                                          criteria_input f)).
  destruct (r history _); lia.
Qed.

Lemma all_answered_none_refused r (files : list UploadedFile) : forall history,
  all_answered r history
    (requests_of_files r history api_key selected_model criteria_input files) ->
  refused_extractions r history api_key selected_model criteria_input files = 0.
Proof.
  induction files as [|f files IH]; intros history A; [reflexivity|].
  cbn [requests_of_files refused_extractions] in *.
  rewrite IH.
  - rewrite Nat.add_0_r.
    remember (extraction_request api_key selected_model
                (cleaned f (document_text f) criteria_input)) as r1 eqn:Er1.
    assert (H1 : exists tl,
               requests_of_document r history api_key selected_model
                                    criteria_input f = r1 :: tl).
    { unfold requests_of_document. cbv zeta. rewrite <- Er1.
      destruct (r history r1); eexists; reflexivity. }
    destruct H1 as [tl Htl]. rewrite Htl in A.
    destruct (A [] r1 (tl ++ requests_of_files r (history ++ r1 :: tl) api_key
                                   selected_model criteria_input files))
      as [a Ha]; [reflexivity|].
    rewrite app_nil_r in Ha. now rewrite Ha.
  - intros before request after E.
    destruct (A (requests_of_document r history api_key selected_model
                                      criteria_input f ++ before)
                request after) as [a Ha].
    + rewrite E. now rewrite <- app_assoc.
    + exists a. now rewrite <- app_assoc.
Qed.

(** Every request is built from one of the files. *)
Lemma requests_of_files_shape r (files : list UploadedFile) : forall history,
  Forall (fun request =>
            exists f, In f files
                      /\ request_of_file api_key selected_model criteria_input
                                         f request)
         (requests_of_files r history api_key selected_model criteria_input files).
Proof.
  induction files as [|f files IH]; intros history; [constructor|].
  cbn [requests_of_files]. apply Forall_app. split.
  - unfold requests_of_document. cbv zeta.
    destruct (r history _) as [a1|e].
    + constructor; [exists f; split; [now left|now left]|].
      constructor; [|constructor].
      exists f. split; [now left|]. right. now exists a1.
    + constructor; [|constructor]. exists f. split; [now left|now left].
  - eapply Forall_impl; [|apply IH].
    intros request (g & Hg & Hr). exists g. split; [now right|exact Hr].
Qed.

Lemma outcomes_of_files_length r (files : list UploadedFile) : forall history,
  List.length (outcomes_of_files r history api_key selected_model criteria_input files)
  = List.length files.
Proof.
  induction files as [|f files IH]; intros history; [reflexivity|].
  cbn [outcomes_of_files List.length]. now rewrite IH.
Qed.

(** The outcomes are those of the runs of [process_document], each in the
    world the runs before it have left. *)
Lemma outcomes_of_files_runs (f : UploadedFile) (files : list UploadedFile) w :
  outcomes_of_files (remote w) (llm_calls w) api_key selected_model
                    criteria_input (f :: files)
  = fst (process_document api_key selected_model f criteria_input w)
    :: outcomes_of_files
         (remote w)
         (llm_calls (snd (process_document api_key selected_model f
                                           criteria_input w)))
         api_key selected_model criteria_input files.
Proof.
  destruct (process_document_exact f w) as (evs & ->).
  reflexivity.
Qed.

(** C7, as the code has it. With a key that is not empty and that the
    environment takes, processing N uploaded documents sends, document
    after document, the requests of each document to the provider as it
    stands after the requests before: the document's extraction request, alone when the
    provider refused it and otherwise followed by its verification request.
    That is exactly 2 N model invocations less one for each refused
    extraction call, so at least N and at most 2 N, and exactly 2 N when every
    call that was made returned.  Every request is built from the run's one
    criteria string and one document's own name and text, starting from
    empty extracted_data and quality_report, and for a verification request
    an answer of the provider; a failing call does not stop the loop. *)
Theorem per_file_loop_calls (uploaded_files : list UploadedFile) (w : World) :
  usable_key api_key = true ->
  fst (analyse_all api_key selected_model criteria_input uploaded_files w)
  = Return tt
  /\ llm_calls (snd (analyse_all api_key selected_model criteria_input
                                 uploaded_files w))
     = llm_calls w
       ++ requests_of_files (remote w) (llm_calls w) api_key selected_model
                            criteria_input uploaded_files
  /\ List.length (requests_of_files (remote w) (llm_calls w) api_key
                                    selected_model criteria_input uploaded_files)
     + refused_extractions (remote w) (llm_calls w) api_key selected_model
                           criteria_input uploaded_files
     = 2 * List.length uploaded_files
  /\ List.length uploaded_files
     <= List.length (requests_of_files (remote w) (llm_calls w) api_key
                                       selected_model criteria_input uploaded_files)
     <= 2 * List.length uploaded_files
  /\ (all_answered (remote w) (llm_calls w)
                   (requests_of_files (remote w) (llm_calls w) api_key
                                      selected_model criteria_input uploaded_files) ->
      List.length (requests_of_files (remote w) (llm_calls w) api_key
                                     selected_model criteria_input uploaded_files)
      = 2 * List.length uploaded_files)
  /\ Forall (fun request =>
               exists f, In f uploaded_files
                         /\ request_of_file api_key selected_model criteria_input
                                            f request)
            (requests_of_files (remote w) (llm_calls w) api_key selected_model
                               criteria_input uploaded_files).
Proof.
  intros _. unfold analyse_all.
  destruct (loop_exact (List.length uploaded_files) uploaded_files 0 w)
    as (w' & Hloop & _ & Hcalls & _).
  rewrite Hloop. cbn [fst snd].
  pose proof (requests_of_files_length (remote w) uploaded_files (llm_calls w)) as L.
  pose proof (refused_extractions_bound (remote w) uploaded_files (llm_calls w)) as B.
  split; [reflexivity|]. split; [exact Hcalls|]. split; [exact L|].
  split; [lia|]. split; [|apply requests_of_files_shape].
  intros A. apply all_answered_none_refused in A. lia.
Qed.

End Loop.

Section LoopExamples.

Import Samples.

(** Two documents and a provider that answers. *)
Lemma per_file_loop_calls_two_documents :
  fst (analyse_all key chat drug_only [aspirin_pdf; gap_pdf] (fresh_world answering))
  = Return tt
  /\ llm_calls (snd (analyse_all key chat drug_only [aspirin_pdf; gap_pdf]
                                 (fresh_world answering)))
     = llm_calls (fresh_world answering)
       ++ requests_of_files (remote (fresh_world answering))
                            (llm_calls (fresh_world answering)) key chat
                            drug_only [aspirin_pdf; gap_pdf]
  /\ List.length (requests_of_files (remote (fresh_world answering))
                                    (llm_calls (fresh_world answering)) key
                                    chat drug_only [aspirin_pdf; gap_pdf])
     + refused_extractions (remote (fresh_world answering))
                           (llm_calls (fresh_world answering)) key chat
                           drug_only [aspirin_pdf; gap_pdf]
     = 2 * List.length [aspirin_pdf; gap_pdf]
  /\ List.length [aspirin_pdf; gap_pdf]
     <= List.length (requests_of_files (remote (fresh_world answering))
                                       (llm_calls (fresh_world answering)) key
                                       chat drug_only [aspirin_pdf; gap_pdf])
     <= 2 * List.length [aspirin_pdf; gap_pdf]
  /\ (all_answered (remote (fresh_world answering))
                   (llm_calls (fresh_world answering))
                   (requests_of_files (remote (fresh_world answering))
                                      (llm_calls (fresh_world answering)) key
                                      chat drug_only [aspirin_pdf; gap_pdf]) ->
      List.length (requests_of_files (remote (fresh_world answering))
                                     (llm_calls (fresh_world answering)) key
                                     chat drug_only [aspirin_pdf; gap_pdf])
      = 2 * List.length [aspirin_pdf; gap_pdf])
  /\ Forall (fun request =>
               exists f, In f [aspirin_pdf; gap_pdf]
                         /\ request_of_file key chat drug_only f request)
            (requests_of_files (remote (fresh_world answering))
                               (llm_calls (fresh_world answering)) key chat
                               drug_only [aspirin_pdf; gap_pdf]).
Proof.
  apply (@per_file_loop_calls key chat drug_only [aspirin_pdf; gap_pdf]
           (fresh_world answering)).
  vm_compute. reflexivity.
Defined.

(** C7 as stated fails when the provider refuses the calls: one document,
    one invocation, since its verification call is never made. *)
Lemma one_call_for_a_failed_document :
  List.length
    (llm_calls (snd (analyse_all key chat drug_only [aspirin_pdf]
                                 (fresh_world failing))))
  = 1
  /\ 2 * List.length [aspirin_pdf] = 2
  /\ st_output (snd (analyse_all key chat drug_only [aspirin_pdf]
                                 (fresh_world failing)))
     = [st_expander (lit "📄 文件: aspirin.pdf");
        st_spinner (lit "正在读取并分析 aspirin.pdf ...");
        st_error (lit "处理失败: Error code: 401 - Authentication Fails");
        st_progress 1 1].
Proof. vm_compute. repeat split; reflexivity. Qed.

(** Two documents and a provider that answers: four invocations, two per
    document, each built from its own document. *)
Example two_documents_four_calls :
  map messages
      (llm_calls (snd (analyse_all key chat drug_only [aspirin_pdf; gap_pdf]
                                   (fresh_world answering))))
  = [[HumanMessage (filter_head ++ drug_only ++ filter_middle
                    ++ lit "Drug: Aspirin. n=100." ++ filter_tail)];
     [HumanMessage (monitor_template drug_only (lit "Aspirin")
                                     (lit "Drug: Aspirin. n=100."))];
     [HumanMessage (filter_head ++ drug_only ++ filter_middle
                    ++ lit "a
b" ++ filter_tail)];
     [HumanMessage (monitor_template drug_only (lit "Aspirin") (lit "a
b"))]].
Proof. vm_compute. reflexivity. Qed.

(** A provider that answers two requests and refuses the rest: the first
    document makes its two invocations, the second only its extraction
    call, so three invocations for two documents, one of them refused. *)
Example three_calls_with_a_quota :
  List.length
    (llm_calls (snd (analyse_all key chat drug_only [aspirin_pdf; gap_pdf]
                                 (fresh_world refusing_later))))
  = 3
  /\ refused_extractions refusing_later [] key chat drug_only [aspirin_pdf; gap_pdf]
     = 1
  /\ map messages
         (requests_of_files refusing_later [] key chat drug_only
                            [aspirin_pdf; gap_pdf])
     = [[HumanMessage (filter_head ++ drug_only ++ filter_middle
                       ++ lit "Drug: Aspirin. n=100." ++ filter_tail)];
        [HumanMessage (monitor_template drug_only (lit "Aspirin")
                                        (lit "Drug: Aspirin. n=100."))];
        [HumanMessage (filter_head ++ drug_only ++ filter_middle
                       ++ lit "a
b" ++ filter_tail)]].
Proof. vm_compute. repeat split; reflexivity. Qed.

End LoopExamples.

(** ** More on the Cleaning step *)

Section CleaningMore.

Import Samples.

Lemma split_app_newline sep a b :
  split sep (a ++ sep :: b) = split sep a ++ split sep b.
Proof.
  induction a as [|c a IH]; simpl.
  - now rewrite N.eqb_refl.
  - destruct (N.eqb_spec c sep) as [->|_]; rewrite IH; [reflexivity|].
    pose proof (split_not_nil sep a) as Hne.
    destruct (split sep a) as [|l ls]; [congruence|reflexivity].
Qed.

Lemma kept_lines_app a b :
  kept_lines (a ++ nl :: b) = kept_lines a ++ kept_lines b.
Proof. unfold kept_lines. now rewrite split_app_newline, filter_app. Qed.

Lemma kept_lines_clean text : kept_lines (clean_text text) = kept_lines text.
Proof.
  destruct (clean_text_lines text) as [[E H]|[_ H]]; unfold kept_lines.
  - rewrite H, E. reflexivity.
  - rewrite H. apply filter_idem.
Qed.

Lemma kept_lines_join texts :
  kept_lines (join [nl] texts) = List.concat (map kept_lines texts).
Proof.
  induction texts as [|t texts IH]; [reflexivity|].
  destruct texts as [|t' texts].
  - simpl. now rewrite app_nil_r.
  - change (join [nl] (t :: t' :: texts)) with (t ++ nl :: join [nl] (t' :: texts)).
    rewrite kept_lines_app, IH. reflexivity.
Qed.

Lemma kept_lines_terminated texts :
  kept_lines (terminated texts) = List.concat (map kept_lines texts).
Proof.
  unfold terminated. induction texts as [|t texts IH]; [reflexivity|].
  simpl filter. destruct t as [|c t].
  - simpl. exact IH.
  - cbn [truthy map List.concat]. rewrite <- app_assoc.
    change ([nl] ++ List.concat (map (fun t0 => t0 ++ [nl]) (filter truthy texts)))
      with (nl :: List.concat (map (fun t0 => t0 ++ [nl]) (filter truthy texts))).
    rewrite kept_lines_app, IH. reflexivity.
Qed.

Lemma nonspace_app a b : nonspace (a ++ b) = nonspace a ++ nonspace b.
Proof. apply filter_app. Qed.

Lemma nonspace_blank l : truthy (strip l) = false -> nonspace l = [].
Proof.
  rewrite strip_truthy. intros H. apply negb_false_iff in H.
  unfold blank in H. unfold nonspace.
  induction l as [|c l IH]; [reflexivity|].
  simpl in H. apply andb_true_iff in H as [Hc Hl].
  simpl. rewrite Hc. simpl. now apply IH.
Qed.

Lemma nonspace_join parts :
  nonspace (join [nl] parts) = List.concat (map nonspace parts).
Proof.
  induction parts as [|p rest IH]; [reflexivity|].
  destruct rest as [|q rest].
  - simpl. now rewrite app_nil_r.
  - change (join [nl] (p :: q :: rest)) with (p ++ nl :: join [nl] (q :: rest)).
    rewrite nonspace_app.
    change (nonspace (nl :: join [nl] (q :: rest)))
      with (nonspace (join [nl] (q :: rest))).
    rewrite IH. reflexivity.
Qed.

Lemma nonspace_kept lines :
  List.concat (map nonspace (filter (fun line => truthy (strip line)) lines))
  = List.concat (map nonspace lines).
Proof.
  induction lines as [|l lines IH]; [reflexivity|].
  simpl. destruct (truthy (strip l)) eqn:E; simpl; rewrite IH; [reflexivity|].
  now rewrite (nonspace_blank l E).
Qed.

(** X1. Cleaning only ever drops whitespace: the characters of the cleaned
    text that are not whitespace are those of the input, all of them and in
    the same order. *)
Theorem cleaning_keeps_content (text : str) :
  nonspace (clean_text text) = nonspace text.
Proof.
  unfold clean_text. rewrite nonspace_join, nonspace_kept, <- nonspace_join.
  now rewrite join_split.
Qed.

Lemma join_length_filter (f : str -> bool) lines :
  List.length (join [nl] (filter f lines)) <= List.length (join [nl] lines).
Proof.
  induction lines as [|l lines IH]; [apply Nat.le_refl|].
  assert (Hcons : forall x rest,
             List.length (join [nl] (x :: rest))
             = List.length x
               + match rest with [] => 0 | _ :: _ => 1 + List.length (join [nl] rest) end).
  { intros x [|y rest]; [simpl; lia|].
    change (join [nl] (x :: y :: rest)) with (x ++ nl :: join [nl] (y :: rest)).
    rewrite length_app. reflexivity. }
  rewrite (Hcons l lines).
  simpl filter. destruct (f l).
  - rewrite Hcons. destruct (filter f lines) as [|k ks] eqn:E.
    + lia.
    + destruct lines as [|l' lines']; [discriminate|]. lia.
  - destruct lines as [|l' lines']; simpl in *; lia.
Qed.

(** X2. Cleaning never makes a text longer. *)
Theorem cleaning_never_grows (text : str) :
  List.length (clean_text text) <= List.length text.
Proof.
  unfold clean_text.
  rewrite <- (join_split nl text) at 2. apply join_length_filter.
Qed.

Lemma filter_all (A : Type) (f : A -> bool) l :
  filter f l = l -> Forall (fun a => f a = true) l.
Proof.
  induction l as [|a l IH]; intros H; [constructor|].
  simpl in H. destruct (f a) eqn:E.
  - injection H as H. constructor; [exact E|now apply IH].
  - exfalso. pose proof (filter_length_le f l) as L.
    rewrite H in L. simpl in L. lia.
Qed.

Lemma filter_none_dropped (A : Type) (f : A -> bool) l :
  Forall (fun a => f a = true) l -> filter f l = l.
Proof.
  induction 1 as [|a l Ha _ IH]; [reflexivity|].
  simpl. now rewrite Ha, IH.
Qed.

(** X3. The texts that cleaning leaves as they are are the empty text and
    the texts none of whose lines, the pieces between newlines, is empty or
    whitespace only. *)
Theorem cleaning_fixed_points (text : str) :
  clean_text text = text
  <-> text = [] \/ Forall (fun line => blank line = false) (split nl text).
Proof.
  split.
  - intros H. destruct (clean_text_lines text) as [[_ E]|[_ E]].
    + left. congruence.
    + right. rewrite H in E. symmetry in E. apply filter_all in E.
      eapply Forall_impl; [|exact E]. intros l Hl. cbv beta in Hl.
      rewrite strip_truthy in Hl. now apply negb_true_iff.
  - intros [->|F]; [reflexivity|].
    unfold clean_text. rewrite filter_none_dropped; [apply join_split|].
    eapply Forall_impl; [|exact F]. intros l Hl. cbv beta in Hl.
    rewrite strip_truthy. now apply negb_true_iff.
Qed.

(** A text that ends in a newline has an empty last line and is changed. *)
Example trailing_newline_is_dropped :
  clean_text (lit "Drug: Aspirin. n=100.
") = lit "Drug: Aspirin. n=100.".
Proof. vm_compute. reflexivity. Qed.

(** X4. Cleaning goes through a newline: cleaning two texts put together
    with a newline is the same as cleaning them one by one and cleaning the
    results put together. *)
Theorem cleaning_piecewise (a b : str) :
  clean_text (a ++ nl :: b) = clean_text (clean_text a ++ nl :: clean_text b).
Proof.
  change (clean_text (a ++ nl :: b)) with (join [nl] (kept_lines (a ++ nl :: b))).
  change (clean_text (clean_text a ++ nl :: clean_text b))
    with (join [nl] (kept_lines (clean_text a ++ nl :: clean_text b))).
  now rewrite !kept_lines_app, !kept_lines_clean.
Qed.

(** X5. For a readable PDF the text after the Cleaning step is the
    non-blank lines of the pages, page after page, joined by newlines: the
    same as cleaning the page texts joined by newlines, so that neither the
    pages without text nor the newline the extractor puts after each page
    leave a trace. *)
Theorem cleaned_document_lines
        (file_obj : UploadedFile) (texts : list str) (w : World) :
  readable file_obj texts ->
  exists raw_text,
    extract_text_from_pdf file_obj w = (Return raw_text, w)
    /\ clean_text raw_text = join [nl] (List.concat (map kept_lines texts))
    /\ clean_text raw_text = clean_text (join [nl] texts).
Proof.
  intros R. exists (terminated texts). split; [now apply extract_readable|].
  change (clean_text (terminated texts)) with (join [nl] (kept_lines (terminated texts))).
  change (clean_text (join [nl] texts)) with (join [nl] (kept_lines (join [nl] texts))).
  now rewrite kept_lines_terminated, kept_lines_join.
Qed.

Lemma cleaned_document_lines_of_gap :
  exists raw_text,
    extract_text_from_pdf gap_pdf (fresh_world answering)
    = (Return raw_text, fresh_world answering)
    /\ clean_text raw_text
       = join [nl] (List.concat (map kept_lines [lit "a

b"]))
    /\ clean_text raw_text = clean_text (join [nl] [lit "a

b"]).
Proof.
  apply (@cleaned_document_lines gap_pdf [lit "a

b"] (fresh_world answering)).
  reflexivity.
Defined.

End CleaningMore.

(** ** The exact message of the Extraction step *)

Section MessageExact.

Import Samples.

Lemma occurs_false c s : occurs c s = false -> ~ In c s.
Proof.
  unfold occurs. intros H Hin.
  assert (E : existsb (N.eqb c) s = true).
  { apply existsb_exists. exists c. split; [exact Hin|apply N.eqb_refl]. }
  congruence.
Qed.

Lemma startswith_prefix p : forall s,
  startswith p s = true -> exists rest, s = p ++ rest.
Proof.
  induction p as [|a p IH]; intros s H.
  - now exists s.
  - destruct s as [|b s]; [discriminate|].
    simpl in H. apply andb_true_iff in H as [Hab Hps].
    apply N.eqb_eq in Hab. subst b.
    destruct (IH s Hps) as [rest ->]. now exists rest.
Qed.

(** Two ways of cutting a text at the first occurrence of a character
    agree. *)
Lemma first_occurrence_unique (c : char) x : forall y p q,
  ~ In c x -> ~ In c y -> x ++ c :: p = y ++ c :: q -> x = y.
Proof.
  induction x as [|a x IH]; intros y p q Hx Hy E.
  - destruct y as [|b y]; [reflexivity|].
    simpl in E. injection E as E _. exfalso. apply Hy. now left.
  - destruct y as [|b y].
    + simpl in E. injection E as E _. exfalso. apply Hx. now left.
    + simpl in E. injection E as -> E. f_equal.
      apply (IH y p q); [| |exact E].
      * intros H. apply Hx. now right.
      * intros H. apply Hy. now right.
Qed.

Lemma replace_from_skip old new x : forall b,
  replace_from old new (x ++ b) (List.length x) = replace_from old new b 0.
Proof.
  induction x as [|a x IH]; intros b; [reflexivity|].
  simpl. apply IH.
Qed.

(** A text without a character of [old] holds no occurrence of [old] and
    comes back as it is. *)
Lemma replace_from_absent old new c s :
  In c old -> ~ In c s -> replace_from old new s 0 = s.
Proof.
  intros Hc. induction s as [|a s IH]; intros Hs; [reflexivity|].
  simpl. destruct (startswith old (a :: s)) eqn:E.
  - apply startswith_prefix in E as [rest E]. exfalso. apply Hs.
    rewrite E. apply in_or_app. now left.
  - f_equal. apply IH. intros H. apply Hs. now right.
Qed.

(** When a character of [old] occurs neither before its first place in
    [old] nor in the text before an occurrence of [old], that occurrence is
    the first one, and the replacement goes on after it. *)
Lemma replace_from_first o1 c o2 new a : forall b,
  ~ In c o1 -> ~ In c a ->
  replace_from (o1 ++ c :: o2) new (a ++ (o1 ++ c :: o2) ++ b) 0
  = a ++ new ++ replace_from (o1 ++ c :: o2) new b 0.
Proof.
  intros b Ho. induction a as [|x a IH]; intros Ha.
  - simpl app at 3.
    destruct ((o1 ++ c :: o2) ++ b) as [|y s] eqn:E.
    { destruct o1; discriminate. }
    simpl. rewrite <- E, startswith_app. f_equal.
    assert (L : exists t, o1 ++ c :: o2 = y :: t) by
      (destruct o1 as [|z o1]; simpl in *; injection E as -> _; eauto).
    destruct L as [t L]. rewrite L in E. simpl in E. injection E as <-.
    rewrite L. simpl. rewrite Nat.sub_0_r. apply replace_from_skip.
  - simpl. destruct (startswith (o1 ++ c :: o2) (x :: a ++ (o1 ++ c :: o2) ++ b)) eqn:E.
    + exfalso. apply startswith_prefix in E as [rest E].
      rewrite <- !app_assoc in E. simpl in E.
      assert (X : (x :: a) ++ o1 = o1).
      { apply (@first_occurrence_unique c ((x :: a) ++ o1) o1 (o2 ++ b) (o2 ++ rest)).
        - intros H. apply in_app_or in H as [H|H]; [now apply Ha|now apply Ho].
        - exact Ho.
        - simpl. rewrite <- app_assoc. simpl. exact E. }
      apply (f_equal (@List.length _)) in X.
      rewrite length_app in X. simpl in X. lia.
    + f_equal. apply IH. intros H. apply Ha. now right.
Qed.

Lemma replace_exact (c : char) (before crit between slice n1 n2 after raw : str) :
  ~ In c before -> ~ In c crit -> ~ In c between -> ~ In c slice ->
  ~ In c n1 -> ~ In c after ->
  replace (before ++ crit ++ between ++ slice ++ (n1 ++ c :: n2) ++ after)
          (slice ++ n1 ++ c :: n2) raw
  = before ++ crit ++ between ++ raw ++ after.
Proof.
  intros Hb Hc Hm Hs Hn Ha.
  replace (before ++ crit ++ between ++ slice ++ (n1 ++ c :: n2) ++ after)
    with ((before ++ crit ++ between) ++ ((slice ++ n1) ++ c :: n2) ++ after)
    by now rewrite <- !app_assoc.
  replace (slice ++ n1 ++ c :: n2) with ((slice ++ n1) ++ c :: n2)
    by now rewrite <- app_assoc.
  unfold replace.
  destruct ((slice ++ n1) ++ c :: n2) as [|y old'] eqn:E.
  { destruct (slice ++ n1); discriminate. }
  rewrite <- E. rewrite replace_from_first.
  - rewrite (@replace_from_absent _ _ c after).
    + now rewrite <- !app_assoc.
    + apply in_or_app. right. now left.
    + exact Ha.
  - intros H. apply in_app_or in H as [H|H]; [now apply Hs|now apply Hn].
  - intros H. apply in_app_or in H as [H|H]; [now apply Hb|].
    apply in_app_or in H as [H|H]; [now apply Hc|now apply Hm].
Qed.

Lemma truncation_note_cut :
  truncation_note = note_before ++ note_mark :: note_after.
Proof. vm_compute. reflexivity. Qed.

Lemma mark_not_in_template :
  ~ In note_mark filter_head /\ ~ In note_mark filter_middle
  /\ ~ In note_mark note_before /\ ~ In note_mark filter_tail.
Proof.
  repeat split; apply occurs_false; vm_compute; reflexivity.
Qed.

(** X6. When the mark character of the truncation note occurs neither in
    the criteria nor in the first 30000 characters of the text, the message
    of the Extraction step is exactly the prompt with the whole text in the
    place of the excerpt and nothing of the note left: head, criteria,
    middle, text, tail. *)
Theorem extraction_message_exact (state : LiteratureState) :
  occurs note_mark (screening_criteria state) = false ->
  occurs note_mark (slice_to 30000 (raw_content state)) = false ->
  real_msg state
  = filter_head ++ screening_criteria state ++ filter_middle
    ++ raw_content state ++ filter_tail.
Proof.
  intros Hc Hr. apply occurs_false in Hc. apply occurs_false in Hr.
  destruct mark_not_in_template as (Hh & Hm & Hn & Ht).
  unfold real_msg, filter_prompt. rewrite truncation_note_cut.
  now apply replace_exact.
Qed.

Lemma extraction_message_exact_for_aspirin :
  real_msg (cleaned aspirin_pdf (lit "Drug: Aspirin. n=100.
") drug_only)
  = filter_head
    ++ screening_criteria (cleaned aspirin_pdf (lit "Drug: Aspirin. n=100.
") drug_only)
    ++ filter_middle
    ++ raw_content (cleaned aspirin_pdf (lit "Drug: Aspirin. n=100.
") drug_only)
    ++ filter_tail.
Proof.
  apply (@extraction_message_exact
           (cleaned aspirin_pdf (lit "Drug: Aspirin. n=100.
") drug_only)).
  - vm_compute. reflexivity.
  - vm_compute. reflexivity.
Defined.

(** Without the condition the replacement reaches into the criteria: the
    note written in the criteria of an empty document is taken out of
    them. *)
Example note_in_criteria_is_replaced :
  real_msg (initial_state no_pages_pdf [] (lit "keep" ++ truncation_note))
  = filter_head ++ lit "keep" ++ filter_middle ++ filter_tail.
Proof. apply str_eqb_eq. vm_compute. reflexivity. Qed.

End MessageExact.

(** ** More on one run of [process_document] *)

Section RunMore.

Import Samples.

Variables api_key model_name criteria : str.

Lemma run_outcome_ext w w' (file_obj : UploadedFile) raw_text :
  remote w' = remote w -> llm_calls w' = llm_calls w ->
  run_outcome w' api_key model_name criteria file_obj raw_text
  = run_outcome w api_key model_name criteria file_obj raw_text.
Proof. unfold run_outcome. now intros -> ->. Qed.

(** The outcome and the effects of a run, for the text the extractor
    returned. *)
Lemma process_document_effects (file_obj : UploadedFile) raw_text w :
  (forall w0, extract_text_from_pdf file_obj w0 = (Return raw_text, w0)) ->
  exists reqs evs,
    process_document api_key model_name file_obj criteria w
    = (run_outcome w api_key model_name criteria file_obj raw_text,
       advance w (keyed_environ api_key w) reqs evs [])
    /\ (forall e,
           run_outcome w api_key model_name criteria file_obj raw_text = Raise e ->
           exists before request,
             reqs = before ++ [request]
             /\ remote w (llm_calls w ++ before) request = Raise e).
Proof.
  intros Hx.
  pose proof (@process_document_run_on api_key model_name criteria file_obj
                                       raw_text w Hx) as Hrun.
  cbv zeta in Hrun. unfold run_outcome. cbv zeta.
  remember (extraction_request api_key model_name
              (cleaned file_obj raw_text criteria)) as r1 eqn:Er1.
  destruct (remote w (llm_calls w) r1) as [a1|e1] eqn:E1.
  - remember (verification_request api_key model_name
                (set K_extracted_data (content a1)
                     (cleaned file_obj raw_text criteria))) as r2 eqn:Er2.
    destruct (remote w (llm_calls w ++ [r1]) r2) as [a2|e2] eqn:E2.
    + eexists _, _. split; [exact Hrun|]. intros e He. discriminate.
    + eexists _, _. split; [exact Hrun|]. intros e [= <-].
      exists [r1], r2. split; [reflexivity|exact E2].
  - eexists _, _. split; [exact Hrun|]. intros e [= <-].
    exists [], r1. split; [reflexivity|]. now rewrite app_nil_r.
Qed.

(** X7. With a key that is not empty and that the environment takes,
    [process_document] raises nothing of its own: when it raises, the
    exception is the one the provider raised on the last request it was
    sent; neither the extractor nor the graph runner ever makes it fail. *)
Theorem failures_come_from_provider (file_obj : UploadedFile) (w : World) (e : exception) :
  usable_key api_key = true ->
  fst (process_document api_key model_name file_obj criteria w) = Raise e ->
  exists before request,
    llm_calls (snd (process_document api_key model_name file_obj criteria w))
    = llm_calls w ++ before ++ [request]
    /\ remote w (llm_calls w ++ before) request = Raise e.
Proof.
  intros _.
  destruct (extract_returns file_obj) as [raw_text Hx].
  destruct (process_document_effects file_obj w Hx) as (reqs & evs & Hrun & Hfail).
  rewrite Hrun. cbn [fst snd]. intros He.
  destruct (Hfail e He) as (before & request & -> & Hr).
  exists before, request. split; [reflexivity|exact Hr].
Qed.

Lemma getenv_other env k k' :
  str_eqb k' k = false ->
  getenv (filter (fun kv : str * str => negb (str_eqb (fst kv) k')) env) k
  = getenv env k.
Proof.
  intros Hk. induction env as [|[a v] env IH]; [reflexivity|].
  simpl. destruct (str_eqb a k') eqn:Ea; simpl.
  - destruct (str_eqb a k) eqn:Ek; [|exact IH].
    apply str_eqb_eq in Ea. apply str_eqb_eq in Ek. subst.
    unfold str_eqb in Hk. destruct (list_eq_dec N.eq_dec k k); congruence.
  - destruct (str_eqb a k); [reflexivity|exact IH].
Qed.

Lemma str_eqb_refl k : str_eqb k k = true.
Proof. unfold str_eqb. destruct (list_eq_dec N.eq_dec k k); congruence. Qed.

(** X8. With a key that is not empty and that the environment takes,
    [process_document] shows nothing on the page and changes nothing of the
    provider, whatever its outcome; in the environment it leaves
    DEEPSEEK_API_KEY set to the API key, also when the run fails, and every
    other variable as it was. *)
Theorem process_document_side_effects (file_obj : UploadedFile) (w : World) :
  usable_key api_key = true ->
  st_output (snd (process_document api_key model_name file_obj criteria w))
  = st_output w
  /\ remote (snd (process_document api_key model_name file_obj criteria w))
     = remote w
  /\ getenv (environ (snd (process_document api_key model_name file_obj criteria w)))
            (lit "DEEPSEEK_API_KEY")
     = Some api_key
  /\ (forall k,
         str_eqb (lit "DEEPSEEK_API_KEY") k = false ->
         getenv (environ (snd (process_document api_key model_name file_obj
                                                criteria w))) k
         = getenv (environ w) k).
Proof.
  intros _.
  destruct (extract_returns file_obj) as [raw_text Hx].
  destruct (process_document_effects file_obj w Hx) as (reqs & evs & Hrun & _).
  rewrite Hrun. cbn [fst snd advance st_output remote environ].
  split; [apply app_nil_r|]. split; [reflexivity|].
  unfold keyed_environ, setenv. cbn [snd environ getenv].
  rewrite str_eqb_refl. split; [reflexivity|].
  intros k Hk. rewrite Hk. now apply getenv_other.
Qed.

End RunMore.

Section RunMoreWitnesses.

Import Samples.

Lemma failures_come_from_provider_on_refusal :
  exists before request,
    llm_calls (snd (process_document key chat aspirin_pdf drug_only
                                     (fresh_world failing)))
    = llm_calls (fresh_world failing) ++ before ++ [request]
    /\ remote (fresh_world failing)
              (llm_calls (fresh_world failing) ++ before) request
       = Raise (lit "Error code: 401 - Authentication Fails").
Proof.
  apply (@failures_come_from_provider key chat drug_only aspirin_pdf
           (fresh_world failing) (lit "Error code: 401 - Authentication Fails")).
  - vm_compute. reflexivity.
  - vm_compute. reflexivity.
Defined.

(** A failed run leaves the key in the environment. *)
Lemma key_stays_after_a_failed_run :
  st_output (snd (process_document key chat aspirin_pdf drug_only
                                   (fresh_world failing)))
  = st_output (fresh_world failing)
  /\ remote (snd (process_document key chat aspirin_pdf drug_only
                                   (fresh_world failing)))
     = remote (fresh_world failing)
  /\ getenv (environ (snd (process_document key chat aspirin_pdf drug_only
                                            (fresh_world failing))))
            (lit "DEEPSEEK_API_KEY")
     = Some key
  /\ (forall k,
         str_eqb (lit "DEEPSEEK_API_KEY") k = false ->
         getenv (environ (snd (process_document key chat aspirin_pdf drug_only
                                                (fresh_world failing)))) k
         = getenv (environ (fresh_world failing)) k).
Proof.
  apply (@process_document_side_effects key chat drug_only aspirin_pdf
           (fresh_world failing)).
  vm_compute. reflexivity.
Defined.

End RunMoreWitnesses.

(** ** Unreadable files *)

Section Unreadable.

Import Samples.

Variables api_key model_name criteria : str.

(** X9. An unreadable PDF does not stop the run: the extractor's message
    "Error reading PDF: ..." takes the place of the document, and the
    Extraction step sends it, cleaned like any text, to the model. *)
Theorem unreadable_pdf_is_sent_as_text
        (file_obj : UploadedFile) (e : exception) (w : World) :
  PdfReader file_obj = Raise e ->
  exists pre post later,
    llm_calls (snd (process_document api_key model_name file_obj criteria w))
    = llm_calls w
      ++ {| client := deepseek api_key model_name;
            messages :=
              [HumanMessage
                 (pre ++ clean_text (lit "Error reading PDF: " ++ e) ++ post)] |}
         :: later
    /\ fst (process_document api_key model_name file_obj criteria w)
       = run_outcome w api_key model_name criteria file_obj
                     (lit "Error reading PDF: " ++ e).
Proof.
  intros R.
  assert (Hx : forall w0, extract_text_from_pdf file_obj w0
                          = (Return (lit "Error reading PDF: " ++ e), w0))
    by (intros w0; now apply extract_unreadable).
  destruct (real_msg_holds_text
              (cleaned file_obj (lit "Error reading PDF: " ++ e) criteria))
    as (pre & post & H).
  change (raw_content (cleaned file_obj (lit "Error reading PDF: " ++ e) criteria))
    with (clean_text (lit "Error reading PDF: " ++ e)) in H.
  exists pre, post. rewrite <- H.
  pose proof (@process_document_run_on api_key model_name criteria file_obj
                                       _ w Hx) as Hrun.
  cbv zeta in Hrun. rewrite Hrun. unfold run_outcome. cbv zeta.
  change {| client := deepseek api_key model_name;
            messages := [HumanMessage
                           (real_msg (cleaned file_obj (lit "Error reading PDF: " ++ e)
                                              criteria))] |}
    with (extraction_request api_key model_name
            (cleaned file_obj (lit "Error reading PDF: " ++ e) criteria)).
  destruct (remote w (llm_calls w) _) as [a1|e1].
  - destruct (remote w (llm_calls w ++ _) _) as [a2|e2];
      eexists; split; reflexivity.
  - exists []. split; reflexivity.
Qed.

Lemma cleaned_same (f g : UploadedFile) rf rg :
  name f = name g -> clean_text rf = clean_text rg ->
  cleaned f rf criteria = cleaned g rg criteria.
Proof.
  intros Hn Hc. unfold cleaned, initial_state, set. cbn.
  now rewrite Hn, Hc.
Qed.

(** X10. A run depends on the file only through its name and the cleaned
    text of what the extractor returns: two files that agree on both are
    processed alike, with the same outcome, requests and trace.  So the
    pipeline does not tell an unreadable file from a readable file whose
    text is the error message. *)
Theorem same_name_and_cleaned_text_same_run
        (f g : UploadedFile) (rf rg : str) (w : World) :
  (forall w0, extract_text_from_pdf f w0 = (Return rf, w0)) ->
  (forall w0, extract_text_from_pdf g w0 = (Return rg, w0)) ->
  name f = name g ->
  clean_text rf = clean_text rg ->
  process_document api_key model_name f criteria w
  = process_document api_key model_name g criteria w.
Proof.
  intros Hf Hg Hn Hc.
  pose proof (@process_document_run_on api_key model_name criteria f rf w Hf) as Rf.
  pose proof (@process_document_run_on api_key model_name criteria g rg w Hg) as Rg.
  cbv zeta in Rf, Rg. rewrite Rf, Rg.
  now rewrite (cleaned_same f g rf rg Hn Hc).
Qed.

End Unreadable.

Section UnreadableWitnesses.

Import Samples.

Lemma broken_pdf_is_sent_as_text :
  exists pre post later,
    llm_calls (snd (process_document key chat broken_pdf drug_only
                                     (fresh_world answering)))
    = llm_calls (fresh_world answering)
      ++ {| client := deepseek key chat;
            messages :=
              [HumanMessage
                 (pre ++ clean_text (lit "Error reading PDF: "
                                     ++ lit "EOF marker not found") ++ post)] |}
         :: later
    /\ fst (process_document key chat broken_pdf drug_only (fresh_world answering))
       = run_outcome (fresh_world answering) key chat drug_only broken_pdf
                     (lit "Error reading PDF: " ++ lit "EOF marker not found").
Proof.
  apply (@unreadable_pdf_is_sent_as_text key chat drug_only broken_pdf
           (lit "EOF marker not found") (fresh_world answering)).
  vm_compute. reflexivity.
Defined.

Lemma broken_and_saying_so_run_alike :
  process_document key chat broken_pdf drug_only (fresh_world answering)
  = process_document key chat says_broken_pdf drug_only (fresh_world answering).
Proof.
  apply (@same_name_and_cleaned_text_same_run key chat drug_only
           broken_pdf says_broken_pdf
           (lit "Error reading PDF: " ++ lit "EOF marker not found")
           (terminated [lit "Error reading PDF: EOF marker not found"])
           (fresh_world answering)).
  - intros w0.
    exact (@extract_unreadable broken_pdf (lit "EOF marker not found") w0 eq_refl).
  - intros w0.
    exact (@extract_readable says_broken_pdf
             [lit "Error reading PDF: EOF marker not found"] w0 eq_refl).
  - vm_compute. reflexivity.
  - vm_compute. reflexivity.
Defined.

End UnreadableWitnesses.

(** ** What the page shows *)

Section Page.

Import Samples.

Variables api_key selected_model criteria_input : str.

Lemma analyse_file_shows total idx (pdf_file : UploadedFile) raw_text w :
  (forall w0, extract_text_from_pdf pdf_file w0 = (Return raw_text, w0)) ->
  exists w',
    analyse_file api_key selected_model criteria_input total idx pdf_file w
    = (Return tt, w')
    /\ remote w' = remote w
    /\ st_output w'
       = st_output w
         ++ shown_for pdf_file
              (run_outcome w api_key selected_model criteria_input pdf_file raw_text)
              total idx.
Proof.
  intros Hx. unfold analyse_file.
  unfold bind at 1.
  destruct (show_effects (st_expander (lit "📄 文件: " ++ name pdf_file)) w)
    as (w1 & -> & R1 & C1 & U1).
  unfold bind at 1.
  destruct (show_effects (st_spinner (lit "正在读取并分析 " ++ name pdf_file ++ lit " ...")) w1)
    as (w2 & -> & R2 & C2 & U2).
  unfold bind at 1, try_except, bind at 1.
  destruct (process_document_effects api_key selected_model criteria_input
                                     pdf_file w2 Hx)
    as (reqs & evs & -> & _).
  rewrite (@run_outcome_ext api_key selected_model criteria_input w w2)
    by congruence.
  set (o := run_outcome w api_key selected_model criteria_input pdf_file raw_text).
  set (w3 := advance w2 (keyed_environ api_key w2) reqs evs []).
  assert (R3 : remote w3 = remote w) by (unfold w3; cbn; congruence).
  assert (U3 : st_output w3
               = st_output w
                 ++ [st_expander (lit "📄 文件: " ++ name pdf_file);
                     st_spinner (lit "正在读取并分析 " ++ name pdf_file ++ lit " ...")]).
  { unfold w3. cbn [advance st_output]. rewrite app_nil_r, U2, U1.
    now rewrite <- app_assoc. }
  unfold shown_for.
  destruct o as [result|e]; eexists; (split; [reflexivity|]);
    cbn [remote st_output]; (split; [exact R3|]);
    rewrite U3, <- !app_assoc; reflexivity.
Qed.

Lemma progress_of_app a b : progress_of (a ++ b) = progress_of a ++ progress_of b.
Proof. apply flat_map_app. Qed.

Lemma errors_of_app a b : errors_of (a ++ b) = errors_of a ++ errors_of b.
Proof. apply flat_map_app. Qed.

Lemma progress_of_blocks total (files : list UploadedFile) : forall idx outcomes,
  List.length outcomes = List.length files ->
  progress_of (blocks_for total idx files outcomes)
  = map (fun i => (i + 1, total)) (seq idx (List.length files)).
Proof.
  induction files as [|f files IH]; intros idx outcomes L.
  - destruct outcomes; reflexivity.
  - destruct outcomes as [|o outcomes]; [discriminate|].
    change (blocks_for total idx (f :: files) (o :: outcomes))
      with (shown_for f o total idx ++ blocks_for total (S idx) files outcomes).
    rewrite progress_of_app, IH by (simpl in L; lia).
    simpl seq. simpl map. destruct o; reflexivity.
Qed.

Lemma errors_of_blocks total (files : list UploadedFile) : forall idx outcomes,
  List.length outcomes = List.length files ->
  errors_of (blocks_for total idx files outcomes)
  = map (fun e => lit "处理失败: " ++ e) (failures outcomes).
Proof.
  induction files as [|f files IH]; intros idx outcomes L.
  - destruct outcomes; [reflexivity|discriminate].
  - destruct outcomes as [|o outcomes]; [discriminate|].
    change (blocks_for total idx (f :: files) (o :: outcomes))
      with (shown_for f o total idx ++ blocks_for total (S idx) files outcomes).
    rewrite errors_of_app, IH by (simpl in L; lia).
    destruct o; reflexivity.
Qed.

(** X11. What the page shows for one file is decided by the run of that
    file alone: its name in the expander and the spinner, then either the
    two answers of the provider, word for word, as the extraction result and
    the report, or one error with the provider's message after the prefix,
    and then the progress (idx+1)/total.  The step itself never raises. *)
Theorem file_block_shown
        (total_files idx : nat) (pdf_file : UploadedFile) (w : World) :
  exists raw_text,
    (forall w0, extract_text_from_pdf pdf_file w0 = (Return raw_text, w0))
    /\ fst (process_document api_key selected_model pdf_file criteria_input w)
       = run_outcome w api_key selected_model criteria_input pdf_file raw_text
    /\ fst (analyse_file api_key selected_model criteria_input total_files idx
                         pdf_file w)
       = Return tt
    /\ st_output (snd (analyse_file api_key selected_model criteria_input
                                    total_files idx pdf_file w))
       = st_output w
         ++ shown_for pdf_file
              (run_outcome w api_key selected_model criteria_input pdf_file raw_text)
              total_files idx.
Proof.
  destruct (extract_returns pdf_file) as [raw_text Hx].
  exists raw_text. split; [exact Hx|].
  destruct (process_document_effects api_key selected_model criteria_input
                                     pdf_file w Hx) as (reqs & evs & -> & _).
  destruct (analyse_file_shows total_files idx pdf_file w Hx) as (w' & -> & _ & U).
  repeat split. exact U.
Qed.

(** Every request of the loop comes from the one client. *)
Lemma loop_requests (files : list UploadedFile) (w : World) :
  exists reqs,
    llm_calls (snd (analyse_all api_key selected_model criteria_input files w))
    = llm_calls w ++ reqs
    /\ Forall (fun r => client r = deepseek api_key selected_model
                        /\ exists text, messages r = [HumanMessage text]) reqs.
Proof.
  unfold analyse_all.
  destruct (loop_run api_key selected_model criteria_input
                     (List.length files) files 0 w)
    as (per_doc & w' & -> & _ & Hcalls & Hdocs & _ & _).
  exists (List.concat per_doc). split; [exact Hcalls|].
  clear Hcalls. induction Hdocs as [|f reqs fs per_doc Hdoc _ IH]; [constructor|].
  simpl. apply Forall_app. split; [|exact IH].
  destruct Hdoc as (raw_text & history & _ & [(e & _ & ->)|(a1 & _ & ->)]);
    repeat constructor; eexists; reflexivity.
Qed.

(** X13. Every request the per-file loop sends goes through the one client
    built from the session's key and model, at temperature 0 and with the
    DeepSeek base address, and carries a single human message and no system
    message. *)
Theorem requests_use_session_client (uploaded_files : list UploadedFile) (w : World) :
  exists reqs,
    llm_calls (snd (analyse_all api_key selected_model criteria_input
                                uploaded_files w))
    = llm_calls w ++ reqs
    /\ Forall (fun r =>
                 model (client r) = selected_model
                 /\ openai_api_key (client r) = api_key
                 /\ openai_api_base (client r) = lit "https://api.deepseek.com"
                 /\ temperature (client r) = 0%N
                 /\ exists text, messages r = [HumanMessage text]) reqs.
Proof.
  destruct (loop_requests uploaded_files w) as (reqs & Hcalls & F).
  exists reqs. split; [exact Hcalls|].
  eapply Forall_impl; [|exact F]. intros r [Hc Hm]. cbv beta.
  rewrite Hc. repeat split. exact Hm.
Qed.


End Page.

Section Handler.

Import Samples.

(** X12. With a key that is not empty and that the environment takes, and
    at least one file, the handler never raises, whatever the files and the
    provider do.  The page shows the progress at 0, the dashboard title, one
    block per file in upload order and the closing success message, and the
    block of a file shows how the run of [process_document] on that file
    ended, in the world the runs before it have left.  So the progress bar
    goes through 0, 1/N, 2/N, ..., N/N and never beyond 1, and the errors
    shown are the failures of these runs, one per failed file, in order. *)
Theorem handler_page
        (api_key selected_model criteria_input : str) (first : UploadedFile)
        (others : list UploadedFile) (w : World) :
  usable_key api_key = true ->
  fst (button_handler api_key selected_model criteria_input (first :: others) w)
  = Return tt
  /\ st_output (snd (button_handler api_key selected_model criteria_input
                                    (first :: others) w))
     = st_output w
       ++ [st_progress 0 1; st_markdown (lit "### 📊 分析结果看板")]
       ++ blocks_for (List.length (first :: others)) 0 (first :: others)
            (outcomes_of_files (remote w) (llm_calls w) api_key selected_model
                               criteria_input (first :: others))
       ++ [st_success (lit "✅ 所有文献处理完毕！")]
  /\ (forall (f : UploadedFile) (files : list UploadedFile) (w0 : World),
         outcomes_of_files (remote w0) (llm_calls w0) api_key selected_model
                           criteria_input (f :: files)
         = fst (process_document api_key selected_model f criteria_input w0)
           :: outcomes_of_files
                (remote w0)
                (llm_calls (snd (process_document api_key selected_model f
                                                  criteria_input w0)))
                api_key selected_model criteria_input files)
  /\ progress_of (st_output (snd (button_handler api_key selected_model
                                                 criteria_input
                                                 (first :: others) w)))
     = progress_of (st_output w)
       ++ (0, 1)
          :: map (fun i => (i + 1, List.length (first :: others)))
                 (seq 0 (List.length (first :: others)))
  /\ errors_of (st_output (snd (button_handler api_key selected_model
                                               criteria_input
                                               (first :: others) w)))
     = errors_of (st_output w)
       ++ map (fun e => lit "处理失败: " ++ e)
              (failures (outcomes_of_files (remote w) (llm_calls w) api_key
                                           selected_model criteria_input
                                           (first :: others))).
Proof.
  intros Hkey.
  destruct api_key as [|c key_rest]; [discriminate|]. clear Hkey.
  assert (H : exists w',
             button_handler (c :: key_rest) selected_model criteria_input
                            (first :: others) w
             = (Return tt, w')
             /\ st_output w'
                = st_output w
                  ++ [st_progress 0 1; st_markdown (lit "### 📊 分析结果看板")]
                  ++ blocks_for (List.length (first :: others)) 0
                       (first :: others)
                       (outcomes_of_files (remote w) (llm_calls w) (c :: key_rest)
                                          selected_model criteria_input
                                          (first :: others))
                  ++ [st_success (lit "✅ 所有文献处理完毕！")]).
  { unfold button_handler. cbn [truthy negb].
    unfold bind at 1. unfold show at 1. cbv iota beta.
    unfold bind at 1. unfold show at 1. cbv iota beta.
    unfold bind at 1, analyse_all.
    match goal with
    | |- context [for_enumerate 0 _ _ ?w2] =>
        destruct (loop_exact (c :: key_rest) selected_model criteria_input
                             (List.length (first :: others)) (first :: others) 0 w2)
          as (w3 & -> & _ & _ & U3)
    end.
    cbn [st_output remote llm_calls] in U3.
    eexists. split; [reflexivity|].
    cbn [show snd st_output]. rewrite U3. now rewrite <- !app_assoc. }
  destruct H as (w' & -> & U).
  cbn [fst snd].
  split; [reflexivity|]. split; [exact U|].
  split; [intros f files w0; apply outcomes_of_files_runs|].
  rewrite U.
  split.
  - rewrite !progress_of_app.
    rewrite progress_of_blocks by apply outcomes_of_files_length.
    cbn [progress_of flat_map app]. now rewrite app_nil_r.
  - rewrite !errors_of_app.
    rewrite errors_of_blocks by apply outcomes_of_files_length.
    cbn [errors_of flat_map app]. now rewrite app_nil_r.
Qed.

(** A page for two files, the second of which the provider refuses. *)
Lemma handler_page_second_refused :
  fst (button_handler key chat drug_only [aspirin_pdf; gap_pdf]
                      (fresh_world refusing_later))
  = Return tt
  /\ st_output (snd (button_handler key chat drug_only [aspirin_pdf; gap_pdf]
                                    (fresh_world refusing_later)))
     = st_output (fresh_world refusing_later)
       ++ [st_progress 0 1; st_markdown (lit "### 📊 分析结果看板")]
       ++ blocks_for (List.length [aspirin_pdf; gap_pdf]) 0 [aspirin_pdf; gap_pdf]
            (outcomes_of_files (remote (fresh_world refusing_later))
                               (llm_calls (fresh_world refusing_later)) key chat
                               drug_only [aspirin_pdf; gap_pdf])
       ++ [st_success (lit "✅ 所有文献处理完毕！")]
  /\ (forall (f : UploadedFile) (files : list UploadedFile) (w0 : World),
         outcomes_of_files (remote w0) (llm_calls w0) key chat drug_only
                           (f :: files)
         = fst (process_document key chat f drug_only w0)
           :: outcomes_of_files
                (remote w0)
                (llm_calls (snd (process_document key chat f drug_only w0)))
                key chat drug_only files)
  /\ progress_of (st_output (snd (button_handler key chat drug_only
                                                 [aspirin_pdf; gap_pdf]
                                                 (fresh_world refusing_later))))
     = progress_of (st_output (fresh_world refusing_later))
       ++ (0, 1)
          :: map (fun i => (i + 1, List.length [aspirin_pdf; gap_pdf]))
                 (seq 0 (List.length [aspirin_pdf; gap_pdf]))
  /\ errors_of (st_output (snd (button_handler key chat drug_only
                                               [aspirin_pdf; gap_pdf]
                                               (fresh_world refusing_later))))
     = errors_of (st_output (fresh_world refusing_later))
       ++ map (fun e => lit "处理失败: " ++ e)
              (failures (outcomes_of_files (remote (fresh_world refusing_later))
                                           (llm_calls (fresh_world refusing_later))
                                           key chat drug_only
                                           [aspirin_pdf; gap_pdf])).
Proof.
  apply (@handler_page key chat drug_only aspirin_pdf [gap_pdf]
           (fresh_world refusing_later)).
  vm_compute. reflexivity.
Defined.

(** What that page is. *)
Example page_with_one_failure :
  st_output (snd (button_handler key chat drug_only [aspirin_pdf; gap_pdf]
                                 (fresh_world refusing_later)))
  = [st_progress 0 1;
     st_markdown (lit "### 📊 分析结果看板");
     st_expander (lit "📄 文件: aspirin.pdf");
     st_spinner (lit "正在读取并分析 aspirin.pdf ...");
     st_columns [2%N; 1%N];
     st_subheader (lit "🔍 数据提取结果");
     st_markdown (lit "Aspirin");
     st_subheader (lit "🛡️ 监督者报告");
     st_info (lit "Aspirin");
     st_progress 1 2;
     st_expander (lit "📄 文件: gap.pdf");
     st_spinner (lit "正在读取并分析 gap.pdf ...");
     st_error (lit "处理失败: Error code: 429 - Rate limit reached");
     st_progress 2 2;
     st_success (lit "✅ 所有文献处理完毕！")].
Proof. vm_compute. reflexivity. Qed.

End Handler.

(** ** The size of the two messages *)

Section Sizes.

(** X14. The Verification prompt is bounded whatever the length of the
    text: 263 characters of template, the criteria, the extracted data, and
    at most 5000 characters of text.  The Extraction message is not: it is
    never shorter than the text. *)
Theorem message_sizes (state : LiteratureState) :
  List.length (monitor_prompt state)
  = 263 + List.length (screening_criteria state)
    + List.length (extracted_data state)
    + Nat.min (N.to_nat 5000) (List.length (raw_content state))
  /\ List.length (monitor_prompt state)
     <= 263 + N.to_nat 5000 + List.length (screening_criteria state)
        + List.length (extracted_data state)
  /\ List.length (raw_content state) <= List.length (real_msg state).
Proof.
  assert (E : List.length (monitor_prompt state)
              = 263 + List.length (screening_criteria state)
                + List.length (extracted_data state)
                + Nat.min (N.to_nat 5000) (List.length (raw_content state))).
  { unfold monitor_prompt, monitor_template, monitor_excerpt, slice_to.
    rewrite !length_app, length_firstn.
    replace (List.length monitor_head) with 109 by (vm_compute; reflexivity).
    replace (List.length monitor_middle) with 17 by (vm_compute; reflexivity).
    replace (List.length monitor_excerpt_label) with 19 by (vm_compute; reflexivity).
    replace (List.length monitor_tail) with 118 by (vm_compute; reflexivity).
    lia. }
  split; [exact E|]. split; [rewrite E; lia|].
  destruct (real_msg_holds_text state) as (pre & post & ->).
  rewrite !length_app. lia.
Qed.

End Sizes.
